(** * Comment-stripping tools of steps_tracker

    A shallow embedding of [tools/remove_commented_lines.py] and of the
    line filters of [tools/remove_comments.py], with the properties their
    specification states about them.

    Python strings are sequences of Unicode code points; a line keeps its
    terminator.  The regular expressions of the sources are kept as data
    and run by a small backtracking matcher. *)

From Stdlib Require Import List NArith ZArith Bool String Ascii Lia Arith.
From Stdlib Require Strings.Byte.
Import ListNotations.

(* ------------------------------------------------------------------ *)
(** * Python strings *)

Module Py.

(** A code point. *)
Definition char := N.

(** A [str]: its code points in order. *)
Definition pystr := list char.

(** A literal written in the sources (all of them are ASCII). *)
Fixpoint py (s : string) : pystr :=
  match s with
  | EmptyString => []
  | String a s' => N_of_ascii a :: py s'
  end.

(** The line feed, which [.] of [re] refuses and [$] tolerates. *)
Definition LF : char := 10%N.

(** [str.isspace] on one code point, which is also the class [\s] of [re]
    on [str] patterns: both are [Py_UNICODE_ISSPACE]. *)
Definition is_space (c : char) : bool :=
  ((9 <=? c) && (c <=? 13) ||
   (28 <=? c) && (c <=? 32) ||
   (c =? 133) || (c =? 160) || (c =? 5760) ||
   (8192 <=? c) && (c <=? 8202) ||
   (c =? 8232) || (c =? 8233) || (c =? 8239) || (c =? 8287) ||
   (c =? 12288))%N.

(** [a == b] on strings. *)
Fixpoint str_eqb (a b : pystr) : bool :=
  match a, b with
  | [], [] => true
  | x :: a', y :: b' => N.eqb x y && str_eqb a' b'
  | _, _ => false
  end.

(** [a == b] on lists of strings. *)
Fixpoint lines_eqb (a b : list pystr) : bool :=
  match a, b with
  | [], [] => true
  | x :: a', y :: b' => str_eqb x y && lines_eqb a' b'
  | _, _ => false
  end.

(** [x in S] for a set of strings, given by its elements. *)
Definition mem (x : pystr) (S : list pystr) : bool := existsb (str_eqb x) S.

(** [s.startswith(p)]. *)
Fixpoint starts_with (p s : pystr) : bool :=
  match p, s with
  | [], _ => true
  | c :: p', x :: s' => N.eqb x c && starts_with p' s'
  | _ :: _, [] => false
  end.

(** [s.endswith(p)]. *)
Definition ends_with (p s : pystr) : bool := starts_with (rev p) (rev s).

(** [p in s]: [p] occurs in [s] at some position. *)
Fixpoint contains (p s : pystr) : bool :=
  starts_with p s ||
  match s with
  | [] => false
  | _ :: s' => contains p s'
  end.

(** [s.lstrip()]. *)
Fixpoint lstrip (s : pystr) : pystr :=
  match s with
  | [] => []
  | x :: s' => if is_space x then lstrip s' else s
  end.

(** [s.rstrip()]. *)
Fixpoint rstrip (s : pystr) : pystr :=
  match s with
  | [] => []
  | x :: s' =>
      match rstrip s' with
      | [] => if is_space x then [] else [x]
      | t => x :: t
      end
  end.

(** [s.strip()]. *)
Definition strip (s : pystr) : pystr := rstrip (lstrip s).

(** [str.lower] on one code point, for the ASCII capitals.  Code points
    outside [A-Z] are left as they are. *)
Definition lower_char (c : char) : char :=
  if ((65 <=? c) && (c <=? 90))%N then (c + 32)%N else c.

(** [s.lower()]. *)
Definition lower (s : pystr) : pystr := map lower_char s.

(** [s.rfind(c)] for a one-character [c]: the last index of [c], or -1. *)
Fixpoint rfind_from (c : char) (s : pystr) (i acc : Z) : Z :=
  match s with
  | [] => acc
  | x :: s' => rfind_from c s' (i + 1)%Z (if N.eqb x c then i else acc)
  end.

Definition rfind (c : char) (s : pystr) : Z := rfind_from c s 0%Z (-1)%Z.

(** [s[a:b]] for indices that are not negative. *)
Definition slice (s : pystr) (a b : Z) : pystr :=
  firstn (Z.to_nat b - Z.to_nat a) (skipn (Z.to_nat a) s).

End Py.

(* ------------------------------------------------------------------ *)
(** * The fragment of [re] the tools use *)

Module Re.
Import Py.

(** The character classes of the patterns. *)
Inductive cclass : Set :=
| Space   (* \s *)
| Dot.    (* .  *)

Definition in_class (k : cclass) (c : char) : bool :=
  match k with
  | Space => is_space c
  | Dot => negb (N.eqb c LF)
  end.

(** One element of a pattern.  Every [*] of the sources stands on a class;
    [*?] succeeds on the same inputs as [*], so one constructor serves
    both.  A leading [^] is left out: all patterns that have one are used
    with [re.match], which starts at position 0, where [^] holds. *)
Inductive item : Set :=
| Lit (c : char)              (* an ordinary character *)
| Star (k : cclass)           (* k* and k*? *)
| Alt (alts : list pystr)     (* (a|b|...) over literals *)
| Eos.                        (* $ *)

Definition pattern := list item.

(** A literal run of characters. *)
Definition lit (s : string) : pattern := map Lit (py s).

(** [$] without [re.MULTILINE]: at the end of the string, or just before
    a line feed that ends the string. *)
Definition at_end (s : pystr) : bool :=
  match s with
  | [] => true
  | [c] => N.eqb c LF
  | _ => false
  end.

(** [matches p s]: the pattern matches some prefix of [s]. *)
Fixpoint matches (p : pattern) : pystr -> bool :=
  match p with
  | [] => fun _ => true
  | i :: p' =>
      match i with
      | Lit c => fun s =>
          match s with
          | x :: s' => N.eqb x c && matches p' s'
          | [] => false
          end
      | Star k =>
          fix star (s : pystr) : bool :=
            matches p' s ||
            match s with
            | x :: s' => in_class k x && star s'
            | [] => false
            end
      | Alt alts => fun s =>
          existsb (fun a => starts_with a s && matches p' (skipn (List.length a) s)) alts
      | Eos => fun s => at_end s && matches p' s
      end
  end.

(** [re.match(p, s)] as a truth value. *)
Definition re_match (p : pattern) (s : pystr) : bool := matches p s.

(** [re.search(p, s)] as a truth value: a match from some position. *)
Fixpoint re_search (p : pattern) (s : pystr) : bool :=
  matches p s ||
  match s with
  | [] => false
  | _ :: s' => re_search p s'
  end.

End Re.

(* ------------------------------------------------------------------ *)
(** * [os.path.splitext] *)

Module OsPath.
Import Py.

(** [posixpath.splitext]: the extension starts at the last dot of the
    last component, unless that component has only dots before it. *)
Definition splitext (p : pystr) : pystr * pystr :=
  let sepIndex := rfind 47%N p in
  let dotIndex := rfind 46%N p in
  if ((sepIndex <? dotIndex)%Z &&
      existsb (fun c => negb (N.eqb c 46%N)) (slice p (sepIndex + 1) dotIndex))%bool
  then (firstn (Z.to_nat dotIndex) p, skipn (Z.to_nat dotIndex) p)
  else (p, []).

End OsPath.

(* ------------------------------------------------------------------ *)
(** * tools/remove_commented_lines.py *)

Module RemoveCommentedLines.
Import Py Re.

Definition CLIKE_EXTS : list pystr :=
  [py ".dart"; py ".kt"; py ".kts"; py ".java"; py ".swift"; py ".m";
   py ".mm"; py ".js"; py ".ts"; py ".tsx"; py ".jsx"; py ".gradle"].

Definition XML_EXTS : list pystr := [py ".xml"; py ".plist"].

Definition HASH_EXTS : list pystr := [py ".sh"; py ".yaml"; py ".yml"].

(** The patterns of [remove_full_line_comments]. *)

(** [\*/\s*$] *)
Definition RE_BLOCK_END : pattern := lit "*/" ++ [Star Space; Eos].

(** [^\s*//] *)
Definition RE_SLASHES : pattern := Star Space :: lit "//".

(** [^\s*/\*] *)
Definition RE_BLOCK_START : pattern := Star Space :: lit "/*".

(** [^\s*/\*.*?\*/\s*$] *)
Definition RE_BLOCK_ONE_LINE : pattern :=
  Star Space :: lit "/*" ++ Star Dot :: lit "*/" ++ [Star Space; Eos].

(** [^\s*#] *)
Definition RE_HASH : pattern := Star Space :: lit "#".

(** The variables a loop of [remove_full_line_comments] updates. *)
Record loop_state : Set := Build_state {
  in_block : bool;
  result : list pystr;
  removed : nat
}.

(** [removed += 1; continue] *)
Definition drop (b : bool) (st : loop_state) : loop_state :=
  {| in_block := b; result := result st; removed := removed st + 1 |}.

(** [result.append(line)] *)
Definition keep (line : pystr) (st : loop_state) : loop_state :=
  {| in_block := in_block st; result := result st ++ [line]; removed := removed st |}.

(** Before a loop: [removed = 0], [result = []], [in_block = False]. *)
Definition start : loop_state :=
  {| in_block := false; result := []; removed := 0 |}.

(** One round of the loop of the C-like branch. *)
Definition clike_body (st : loop_state) (line : pystr) : loop_state :=
  let stripped := lstrip line in
  if in_block st then
    if re_search RE_BLOCK_END stripped || contains (py "*/") stripped
    then drop false st
    else drop (in_block st) st
  else if re_match RE_SLASHES line then drop (in_block st) st
  else if re_match RE_BLOCK_START line then
    if re_match RE_BLOCK_ONE_LINE line then drop (in_block st) st
    else drop true st
  else keep line st.

(** One round of the loop of the XML branch. *)
Definition xml_body (st : loop_state) (line : pystr) : loop_state :=
  let stripped := strip line in
  if in_block st then
    if contains (py "-->") stripped
    then drop false st
    else drop (in_block st) st
  else if starts_with (py "<!--") stripped then
    if ends_with (py "-->") stripped then drop (in_block st) st
    else drop true st
  else keep line st.

(** One round of the loop of the hash branch.  [in_block] is no variable
    of this branch: the field stays as [start] sets it. *)
Definition hash_body (st : loop_state) (line : pystr) : loop_state :=
  let stripped := lstrip line in
  if starts_with (py "#!") stripped then keep line st
  else if re_match RE_HASH line then drop (in_block st) st
  else keep line st.

(** [return result, removed] *)
Definition outcome (st : loop_state) : list pystr * nat :=
  (result st, removed st).

Definition remove_full_line_comments (lines : list pystr) (ext : pystr)
  : list pystr * nat :=
  if mem ext CLIKE_EXTS then outcome (fold_left clike_body lines start)
  else if mem ext XML_EXTS then outcome (fold_left xml_body lines start)
  else if mem ext HASH_EXTS then outcome (fold_left hash_body lines start)
  else (lines, 0).

(** The extension [process_file] and [main] pass on:
    [os.path.splitext(path)[1].lower()]. *)
Definition file_ext (path : pystr) : pystr := lower (snd (OsPath.splitext path)).

(** The source has no classifier of its own: the three membership tests
    of [remove_full_line_comments] select the branch.  [classify] names
    the branch taken, in the order of the tests. *)
Inductive dialect : Set := CLikeBlock | XmlBlock | HashLine | NoDialect.

Definition classify (ext : pystr) : dialect :=
  if mem ext CLIKE_EXTS then CLikeBlock
  else if mem ext XML_EXTS then XmlBlock
  else if mem ext HASH_EXTS then HashLine
  else NoDialect.

End RemoveCommentedLines.

(* ------------------------------------------------------------------ *)
(** * tools/remove_comments.py *)

Module RemoveComments.
Import Py Re.

Definition LINE_COMMENT_EXTS : list pystr :=
  [py ".dart"; py ".kt"; py ".java"; py ".swift"; py ".gradle.kts";
   py ".gradle"; py ".yaml"; py ".yml"; py ".sh"; py ".properties"].

Definition XML_LIKE_EXTS : list pystr := [py ".xml"; py ".plist"; py ".html"].

(** [^\s*(//|#|!|;).*$] *)
Definition RE_LINE_COMMENT : pattern :=
  [Star Space; Alt [py "//"; py "#"; py "!"; py ";"]; Star Dot; Eos].

(** [^\s*<!--.*-->\s*$] *)
Definition RE_XML_SINGLE_LINE_COMMENT : pattern :=
  Star Space :: lit "<!--" ++ Star Dot :: lit "-->" ++ [Star Space; Eos].

(** [PurePath.suffix] of a file name. *)
Definition suffix (name : pystr) : pystr :=
  let i := rfind 46%N name in
  if ((0 <? i) && (i <? Z.of_nat (List.length name) - 1))%Z
  then skipn (Z.to_nat i) name
  else [].

(** The extension [process_file] works with. *)
Definition file_ext (name : pystr) : pystr :=
  let ext := lower (suffix name) in
  if str_eqb ext [] && ends_with (py ".gradle.kts") name
  then py ".gradle.kts"
  else ext.

(** The list comprehension of the line-comment branch. *)
Definition line_filter (lines : list pystr) : list pystr :=
  filter (fun ln => negb (re_match RE_LINE_COMMENT ln)) lines.

(** One round of the loop of the XML branch, on [(filtered, removed_any)]. *)
Definition xml_body (st : list pystr * bool) (ln : pystr) : list pystr * bool :=
  if re_match RE_XML_SINGLE_LINE_COMMENT ln
  then (fst st, true)
  else (fst st ++ [ln], snd st).

Definition xml_filter (lines : list pystr) : list pystr * bool :=
  fold_left xml_body lines ([], false).

(** [process_file] on a file of the given name and lines: the lines the
    file holds afterwards, and the returned [changed]. *)
Definition process_file (name : pystr) (lines : list pystr)
  : list pystr * bool :=
  let ext := file_ext name in
  let after_line :=
    if mem ext LINE_COMMENT_EXTS then
      let filtered := line_filter lines in
      if negb (lines_eqb filtered lines) then (filtered, true) else (lines, false)
    else (lines, false) in
  if mem ext XML_LIKE_EXTS then
    let (filtered, removed_any) := xml_filter lines in
    if removed_any then (filtered, true) else after_line
  else after_line.

End RemoveComments.

(* ------------------------------------------------------------------ *)
(** * The rule sets of the specification *)

Module Spec.
Import Py.

(** What a rule decides for a line. *)
Inductive verdict : Set := Remove | Retain.

(** A rule set: from [in_block] and the line, the verdict on the line and
    the [in_block] the next line is read with. *)
Definition rule := bool -> pystr -> verdict * bool.

(** The engine on a rule set: the retained lines in order and the number
    of removed lines. *)
Fixpoint strip_lines_from (r : rule) (in_block : bool) (lines : list pystr)
  : list pystr * nat :=
  match lines with
  | [] => ([], 0)
  | line :: rest =>
      let (v, b) := r in_block line in
      let (kept, n) := strip_lines_from r b rest in
      match v with
      | Remove => (kept, S n)
      | Retain => (line :: kept, n)
      end
  end.

(** [in_block] is false at the start of each file. *)
Definition strip_lines (r : rule) (lines : list pystr) : list pystr * nat :=
  strip_lines_from r false lines.

(** The line, ignoring only leading whitespace, begins with the marker. *)
Definition begins (marker line : pystr) : bool :=
  starts_with marker (lstrip line).

(** The line ends with the marker followed only by whitespace. *)
Definition ends_then_space (marker line : pystr) : bool :=
  ends_with marker (rstrip line).

(** No line feed in the text. *)
Definition no_line_feed (s : pystr) : bool :=
  forallb (fun c => negb (N.eqb c LF)) s.

(** What follows the opener [/*] of a line that begins with it ends with
    [*/] and then only whitespace, and has no line feed before that
    closer. *)
Definition closes_after_opener (line : pystr) : bool :=
  let body := rstrip (skipn 2 (lstrip line)) in
  ends_with (py "*/") body &&
  no_line_feed (firstn (List.length body - 2) body).

(** CLikeBlock, rules 1 to 4. *)
Definition clike_rule : rule := fun in_block line =>
  if in_block then (Remove, negb (contains (py "*/") line))
  else if begins (py "//") line then (Remove, false)
  else if begins (py "/*") line then (Remove, negb (closes_after_opener line))
  else (Retain, false).

(** CLikeBlock with rule 3 read on the whole line: the block stays closed
    when the line ends with [*/] followed only by whitespace. *)
Definition clike_rule_whole_line : rule := fun in_block line =>
  if in_block then (Remove, negb (contains (py "*/") line))
  else if begins (py "//") line then (Remove, false)
  else if begins (py "/*") line
       then (Remove, negb (ends_then_space (py "*/") line))
  else (Retain, false).

(** XmlBlock, rules 1 to 3. *)
Definition xml_rule : rule := fun in_block line =>
  if in_block then (Remove, negb (contains (py "-->") line))
  else if starts_with (py "<!--") (strip line)
       then (Remove, negb (ends_with (py "-->") (strip line)))
  else (Retain, false).

(** HashLine, rules 1 to 3, on one line: is it retained? *)
Definition hash_retains (line : pystr) : bool :=
  if begins (py "#!") line then true
  else if begins (py "#") line then false
  else true.

(** HashLine as a rule set without state. *)
Definition hash_rule : rule := fun in_block line =>
  (if hash_retains line then Retain else Remove, in_block).

(** The retained lines keep the order of the input: [kept] is [lines]
    with some of its elements left out. *)
Inductive subsequence {A : Type} : list A -> list A -> Prop :=
| sub_nil : subsequence [] []
| sub_take x kept lines :
    subsequence kept lines -> subsequence (x :: kept) (x :: lines)
| sub_skip x kept lines :
    subsequence kept lines -> subsequence kept (x :: lines).

(** The dialect table of section 4.1, by extension. *)
Definition clike_table : list pystr :=
  [py ".dart"; py ".kt"; py ".kts"; py ".java"; py ".swift"; py ".m";
   py ".mm"; py ".js"; py ".ts"; py ".tsx"; py ".jsx"; py ".gradle"].

Definition xml_table : list pystr := [py ".xml"; py ".plist"].

Definition hash_table : list pystr := [py ".sh"; py ".yaml"; py ".yml"].

End Spec.

(** A line of a text file, with its terminator. *)
Definition ln (s : string) : Py.pystr := Py.py s ++ [Py.LF].

(* ------------------------------------------------------------------ *)
(** * From a rule to the variables of a loop *)

Module Link.
Import Py RemoveCommentedLines.

(** The effect on the loop variables of what a rule decides for a line. *)
Definition act (d : Spec.verdict * bool) (line : pystr) (st : loop_state)
  : loop_state :=
  match d with
  | (Spec.Remove, b) =>
      {| in_block := b; result := result st; removed := removed st + 1 |}
  | (Spec.Retain, b) =>
      {| in_block := b; result := result st ++ [line]; removed := removed st |}
  end.

(** The engine of the specification on a dialect. *)
Definition strip (lines : list pystr) (d : dialect) : list pystr * nat :=
  match d with
  | CLikeBlock => Spec.strip_lines Spec.clike_rule lines
  | XmlBlock => Spec.strip_lines Spec.xml_rule lines
  | HashLine => Spec.strip_lines Spec.hash_rule lines
  | NoDialect => (lines, 0)
  end.

(** A rule set that retains a line in some state retains it at the start
    of a file too, and is then not inside a block. *)
Definition settled (r : Spec.rule) : Prop :=
  forall (b : bool) (line : pystr) (b' : bool),
    r b line = (Spec.Retain, b') -> r false line = (Spec.Retain, false).

End Link.

(* ------------------------------------------------------------------ *)
(** * Text files as the tools read and write them *)

Module TextIO.
Import Py.

(** The carriage return. *)
Definition CR : char := 13%N.

(** Reading in text mode with [newline=None]: each [\r\n] and each lone
    [\r] of the decoded text becomes [\n]. *)
Fixpoint universal_newlines (s : pystr) : pystr :=
  match s with
  | [] => []
  | c :: s' =>
      if N.eqb c CR then
        LF :: match s' with
              | d :: s'' =>
                  if N.eqb d LF then universal_newlines s''
                  else universal_newlines s'
              | [] => []
              end
      else c :: universal_newlines s'
  end.

(** [f.readlines()] on the translated text: a line ends after each [\n];
    what follows the last [\n], when not empty, is the last line. *)
Fixpoint readlines (s : pystr) : list pystr :=
  match s with
  | [] => []
  | c :: s' =>
      if N.eqb c LF then [c] :: readlines s'
      else match readlines s' with
           | [] => [[c]]
           | l :: ls => (c :: l) :: ls
           end
  end.

(** [f.writelines(lines)], where [os.linesep] is [\n]: the lines one
    after the other. *)
Definition writelines (lines : list pystr) : pystr := List.concat lines.

(** A file as a tool meets it: the decoded text, or [None] when opening
    or decoding raises; and whether opening for writing succeeds. *)
Record file : Set := Build_file {
  text : option pystr;
  writable : bool
}.

(** The lines [open(path, "r", encoding="utf-8")] and [readlines] give. *)
Definition lines_of (raw : pystr) : list pystr :=
  readlines (universal_newlines raw).

(** A line as [readlines] yields it before the end of the text: no
    carriage return, and one line feed, at its end. *)
Definition terminated (l : pystr) : Prop :=
  exists body, l = body ++ [LF] /\ ~ In LF body /\ ~ In CR body.

(** The last line of a text that does not end with a line feed. *)
Definition unterminated (l : pystr) : Prop :=
  l <> [] /\ ~ In LF l /\ ~ In CR l.

(** The lines of one text: all terminated, but possibly the last. *)
Fixpoint lines_ok (ls : list pystr) : Prop :=
  match ls with
  | [] => True
  | [l] => terminated l \/ unterminated l
  | l :: ls' => terminated l /\ lines_ok ls'
  end.

End TextIO.

(* ------------------------------------------------------------------ *)
(** * tools/remove_commented_lines.py: paths, files and the walk *)

Module LinesDriver.
Import Py TextIO RemoveCommentedLines.

Definition EXCLUDE_DIRS : list pystr :=
  [py "build"; py ".git"; py ".dart_tool"; py "ios/Pods"; py "macos/Pods";
   py "ios/Flutter/ephemeral"; py "macos/Flutter/ephemeral";
   py "android/.gradle"; py "android/build"].

Definition INCLUDED_EXTENSIONS : list pystr :=
  [py ".dart"; py ".kt"; py ".kts"; py ".java"; py ".swift"; py ".m";
   py ".mm"; py ".js"; py ".ts"; py ".tsx"; py ".jsx"; py ".gradle";
   py ".xml"; py ".plist"; py ".sh"; py ".yaml"; py ".yml"].

(** [os.sep], of a POSIX system as [posixpath.splitext] above. *)
Definition SEP : char := 47%N.

(** [s.replace(a, b)] for one-character [a] and [b]. *)
Definition replace_char (a b : char) (s : pystr) : pystr :=
  map (fun c => if N.eqb c a then b else c) s.

(** [is_path_excluded], on the path [rel] that
    [os.path.relpath(path, PROJECT_ROOT)] gives. *)
Definition is_path_excluded (rel : pystr) : bool :=
  let rel_n := replace_char SEP 47%N rel in
  existsb (fun ex => str_eqb rel_n ex || starts_with (ex ++ py "/") rel_n)
          EXCLUDE_DIRS.

(** [process_file] on a file: the file afterwards, and the returned pair
    [(changed, removed)].  A failing [open(path, "w")] leaves the file as
    it is. *)
Definition process_file (path : pystr) (f : file) : file * (nat * nat) :=
  match text f with
  | None => (f, (0, 0))
  | Some raw =>
      let original_lines := lines_of raw in
      let ext := file_ext path in
      let (new_lines, removed) := remove_full_line_comments original_lines ext in
      if 0 <? removed then
        if writable f
        then ({| text := Some (writelines new_lines); writable := writable f |},
              (1, removed))
        else (f, (0, 0))
      else (f, (0, removed))
  end.












End LinesDriver.

(* ------------------------------------------------------------------ *)
(** * tools/remove_comments.py: directories and files *)

Module CommentsDriver.
Import Py RemoveComments.

(** The names of [skip_names]. *)
Definition skip_names : list pystr :=
  [py "build"; py ".dart_tool"; py "Pods"; py "ephemeral"; py "ios";
   py "macos"; py ".git"; py "node_modules"].

(** [should_skip_dir], on the components [path.parts] of the path. *)
Definition should_skip_dir (parts : list pystr) : bool :=
  if existsb (fun name => mem name parts) skip_names then
    if mem (py "Flutter") parts && mem (py "ephemeral") parts then true
    else if mem (py "build") parts || mem (py ".dart_tool") parts
            || mem (py "Pods") parts || mem (py "node_modules") parts
         then true
    else false
  else false.

(** [is_text_file], on the bytes of the file, or [None] when opening or
    reading raises. *)
Definition is_text_file (data : option (list Byte.byte)) : bool :=
  match data with
  | None => false
  | Some bytes =>
      let chunk := firstn 4096 bytes in
      negb (existsb (Byte.eqb Byte.x00) chunk)
  end.

(** The test of [main] on a file name: is the file counted and handed
    to [process_file]? *)
Definition selected (name : pystr) : bool :=
  mem (lower (suffix name)) LINE_COMMENT_EXTS
  || mem (lower (suffix name)) XML_LIKE_EXTS
  || ends_with (py ".gradle.kts") name.

(** The markers of [RE_LINE_COMMENT]. *)
Definition line_markers : list pystr := [py "//"; py "#"; py "!"; py ";"].

(** A line begins, after leading whitespace, with one of the markers. *)
Definition begins_with_marker (line : pystr) : bool :=
  existsb (fun m => starts_with m (lstrip line)) line_markers.

(** A line as [splitlines(keepends=True)] yields it has no line feed
    before its last character. *)
Definition one_line (line : pystr) : bool :=
  forallb (fun c => negb (N.eqb c LF)) (removelast line).

End CommentsDriver.

(* ------------------------------------------------------------------ *)
(** * Facts about the string operations *)

Module PyFacts.
Import Py.

Lemma str_eqb_eq (a b : pystr) : str_eqb a b = true <-> a = b.
Proof.
  revert b; induction a as [|x a IH]; intros [|y b]; simpl;
    try (split; (reflexivity || discriminate)).
  rewrite andb_true_iff, N.eqb_eq, IH.
  split; [intros [-> ->]; reflexivity | intros [= -> ->]; auto].
Qed.

Lemma str_eqb_refl (a : pystr) : str_eqb a a = true.
Proof. apply str_eqb_eq; reflexivity. Qed.

Lemma mem_In (x : pystr) (S : list pystr) : mem x S = true <-> In x S.
Proof.
  unfold mem; rewrite existsb_exists; split.
  - intros (y & Hy & E). apply str_eqb_eq in E. subst; assumption.
  - intros H. exists x; split; [assumption | apply str_eqb_refl].
Qed.

Lemma starts_with_iff (p s : pystr) :
  starts_with p s = true <-> exists r, s = p ++ r.
Proof.
  revert s; induction p as [|c p IH]; intros s; simpl.
  - split; [intros _; exists s; reflexivity | reflexivity].
  - destruct s as [|x s].
    + split; [discriminate | intros (r & E); discriminate].
    + rewrite andb_true_iff, N.eqb_eq, IH. split.
      * intros (-> & r & ->). exists r; reflexivity.
      * intros (r & [= -> ->]). split; [reflexivity | exists r; reflexivity].
Qed.

Lemma starts_with_app (p r : pystr) : starts_with p (p ++ r) = true.
Proof. apply starts_with_iff; exists r; reflexivity. Qed.

Lemma ends_with_iff (p s : pystr) :
  ends_with p s = true <-> exists q, s = q ++ p.
Proof.
  unfold ends_with; rewrite starts_with_iff; split.
  - intros (r & E). exists (rev r).
    rewrite <- (rev_involutive s), E, rev_app_distr, rev_involutive.
    reflexivity.
  - intros (q & ->). exists (rev q). apply rev_app_distr.
Qed.

Lemma contains_iff (p s : pystr) :
  contains p s = true <-> exists a b, s = a ++ p ++ b.
Proof.
  induction s as [|x s IH].
  - simpl. rewrite orb_false_r, starts_with_iff. split.
    + intros (r & E). exists [], r. exact E.
    + intros (a & b & E). destruct a; [exists b; exact E | discriminate].
  - simpl. rewrite orb_true_iff, starts_with_iff, IH. split.
    + intros [(r & E) | (a & b & E)].
      * exists [], r. exact E.
      * exists (x :: a), b. simpl; rewrite E; reflexivity.
    + intros (a & b & E). destruct a as [|y a]; simpl in E.
      * left; exists b; exact E.
      * right; injection E as _ E. exists a, b; exact E.
Qed.

(** [lstrip] takes a run of whitespace off the front, and all of it. *)
Lemma lstrip_split (s : pystr) :
  exists ws, s = ws ++ lstrip s /\ forallb is_space ws = true.
Proof.
  induction s as [|x s (ws & E & H)]; simpl.
  - exists []; auto.
  - destruct (is_space x) eqn:Hx.
    + exists (x :: ws). simpl. rewrite Hx, H, <- E. auto.
    + exists []; auto.
Qed.

Lemma lstrip_head (s : pystr) (x : char) (t : pystr) :
  lstrip s = x :: t -> is_space x = false.
Proof.
  induction s as [|y s IH]; simpl; [discriminate|].
  destruct (is_space y) eqn:Hy; [exact IH|].
  intros [= -> ->]; exact Hy.
Qed.

Lemma lstrip_spaces (ws s : pystr) :
  forallb is_space ws = true -> lstrip (ws ++ s) = lstrip s.
Proof.
  induction ws as [|x ws IH]; simpl; [reflexivity|].
  rewrite andb_true_iff; intros [-> H]; auto.
Qed.

Lemma lstrip_nonspace (x : char) (s : pystr) :
  is_space x = false -> lstrip (x :: s) = x :: s.
Proof. simpl; intros ->; reflexivity. Qed.

(** [rstrip] takes a run of whitespace off the end, and all of it. *)
Lemma rstrip_split (s : pystr) :
  exists ws, s = rstrip s ++ ws /\ forallb is_space ws = true.
Proof.
  induction s as [|x s (ws & E & H)]; simpl.
  - exists []; auto.
  - destruct (rstrip s) as [|y t] eqn:Ht.
    + destruct (is_space x) eqn:Hx.
      * exists (x :: ws). simpl in *. subst s. rewrite Hx, H. split; reflexivity.
      * exists ws. simpl in *. subst s. split; [reflexivity | assumption].
    + exists ws. simpl in *. subst s. split; [reflexivity | assumption].
Qed.

Lemma rstrip_spaces (ws : pystr) :
  forallb is_space ws = true -> rstrip ws = [].
Proof.
  induction ws as [|x ws IH]; simpl; [reflexivity|].
  rewrite andb_true_iff; intros [-> H]. rewrite (IH H). reflexivity.
Qed.

Lemma rstrip_nonspace (c : char) (b : pystr) :
  is_space c = false -> rstrip (c :: b) = c :: rstrip b.
Proof.
  intros Hc. simpl. destruct (rstrip b); [rewrite Hc|]; reflexivity.
Qed.

Lemma rstrip_app_nonspace (u : pystr) (c : char) (b : pystr) :
  is_space c = false -> rstrip (u ++ c :: b) = u ++ c :: rstrip b.
Proof.
  intros Hc. induction u as [|x u IH].
  - apply rstrip_nonspace; assumption.
  - simpl. rewrite IH. destruct u; reflexivity.
Qed.

(** A text that ends with a character that is no whitespace keeps, under
    [rstrip], what stands before trailing whitespace. *)
Lemma rstrip_closed (u : pystr) (c : char) (ws : pystr) :
  is_space c = false -> forallb is_space ws = true ->
  rstrip (u ++ c :: ws) = u ++ [c].
Proof.
  intros Hc Hws. rewrite rstrip_app_nonspace by assumption.
  rewrite rstrip_spaces by assumption. reflexivity.
Qed.

(** A marker that starts with a character that is no whitespace occurs in
    the stripped text when it occurs in the text. *)
Lemma contains_lstrip (c : char) (p s : pystr) :
  is_space c = false -> contains (c :: p) (lstrip s) = contains (c :: p) s.
Proof.
  intros Hc. induction s as [|x s IH]; [reflexivity|].
  change (lstrip (x :: s)) with (if is_space x then lstrip s else x :: s).
  destruct (is_space x) eqn:Hx; [|reflexivity].
  rewrite IH. simpl.
  destruct (N.eqb_spec x c) as [->|_]; [congruence | reflexivity].
Qed.

Lemma contains_rstrip (q : pystr) (c : char) (s : pystr) :
  is_space c = false ->
  contains (q ++ [c]) (rstrip s) = contains (q ++ [c]) s.
Proof.
  intros Hc. apply eq_true_iff_eq. rewrite !contains_iff.
  destruct (rstrip_split s) as (ws & E & Hws). split.
  - intros (a & b & E'). exists a, (b ++ ws).
    rewrite E at 1. rewrite E', <- !app_assoc. reflexivity.
  - intros (a & b & ->). exists a, (rstrip b).
    replace (a ++ (q ++ [c]) ++ b) with ((a ++ q) ++ c :: b)
      by (rewrite <- !app_assoc; reflexivity).
    rewrite rstrip_app_nonspace by assumption.
    rewrite <- !app_assoc; reflexivity.
Qed.

Lemma contains_strip (q : pystr) (c d : char) (s : pystr) :
  is_space c = false -> is_space d = false ->
  contains (c :: q ++ [d]) (strip s) = contains (c :: q ++ [d]) s.
Proof.
  intros Hc Hd. unfold strip.
  change (c :: q ++ [d]) with ((c :: q) ++ [d]).
  rewrite (contains_rstrip (c :: q) d (lstrip s) Hd).
  apply contains_lstrip; assumption.
Qed.

End PyFacts.

(* ------------------------------------------------------------------ *)
(** * Facts about the matcher *)

Module ReFacts.
Import Py Re PyFacts.

(** The equation of [k*]: stop here, or take one character of the class
    and go on. *)
Lemma matches_star (k : cclass) (p : pattern) (s : pystr) :
  matches (Star k :: p) s =
  matches p s ||
  match s with
  | x :: s' => in_class k x && matches (Star k :: p) s'
  | [] => false
  end.
Proof. destruct s; reflexivity. Qed.

(** [k*] followed by [p]: a run of the class, then [p]. *)
Lemma matches_star_iff (k : cclass) (p : pattern) (s : pystr) :
  matches (Star k :: p) s = true <->
  exists a b, s = a ++ b /\ forallb (in_class k) a = true /\ matches p b = true.
Proof.
  split.
  - induction s as [|x s IH]; rewrite matches_star, orb_true_iff.
    + intros [H | H]; [|discriminate]. exists [], []; auto.
    + intros [H | H].
      * exists [], (x :: s); auto.
      * apply andb_true_iff in H as [Hx H].
        destruct (IH H) as (a & b & -> & Ha & Hb).
        exists (x :: a), b. simpl. rewrite Hx, Ha. auto.
  - intros (a & b & -> & Ha & Hb). induction a as [|x a IH]; simpl app.
    + rewrite matches_star, Hb. reflexivity.
    + simpl in Ha. apply andb_true_iff in Ha as [Hx Ha].
      rewrite matches_star, Hx, (IH Ha). apply orb_true_r.
Qed.

(** A run of literal characters is a [startswith] test. *)
Lemma matches_literal (m : pystr) (p : pattern) (s : pystr) :
  matches (map Lit m ++ p) s =
  starts_with m s && matches p (skipn (List.length m) s).
Proof.
  revert s; induction m as [|c m IH]; intros s; [reflexivity|].
  destruct s as [|x s]; [reflexivity|].
  simpl. rewrite IH. apply andb_assoc.
Qed.

(** [\s*] before a character that is no whitespace skips exactly the
    leading whitespace. *)
Lemma matches_space_star (c : char) (p : pattern) (s : pystr) :
  is_space c = false ->
  matches (Star Space :: Lit c :: p) s = matches (Lit c :: p) (lstrip s).
Proof.
  intros Hc. induction s as [|x s IH]; rewrite matches_star.
  - apply orb_false_r.
  - change (lstrip (x :: s)) with (if is_space x then lstrip s else x :: s).
    simpl in_class. destruct (is_space x) eqn:Hx.
    + rewrite IH. simpl.
      destruct (N.eqb_spec x c) as [->|_]; [congruence | reflexivity].
    + apply orb_false_r.
Qed.

(** [^\s*m] for a marker [m] that starts with no whitespace: the line,
    without its leading whitespace, starts with [m]; what follows [m] in
    the pattern reads what follows [m] in the line. *)
Lemma matches_marker (c : char) (m : pystr) (p : pattern) (s : pystr) :
  is_space c = false ->
  matches (Star Space :: map Lit (c :: m) ++ p) s =
  starts_with (c :: m) (lstrip s) &&
  matches p (skipn (List.length (c :: m)) (lstrip s)).
Proof.
  intros Hc. change (map Lit (c :: m) ++ p) with (Lit c :: map Lit m ++ p).
  rewrite matches_space_star by assumption.
  exact (matches_literal (c :: m) p (lstrip s)).
Qed.

(** [\s*$]: only whitespace is left. *)
Lemma matches_trailing_space (t : pystr) :
  matches [Star Space; Eos] t = forallb is_space t.
Proof.
  apply eq_true_iff_eq. rewrite matches_star_iff. split.
  - intros (a & b & -> & Ha & Hb). rewrite forallb_app.
    change (forallb (in_class Space) a) with (forallb is_space a) in Ha.
    rewrite Ha. simpl in Hb. rewrite andb_true_r in Hb.
    destruct b as [|y [|z b]]; try discriminate; [reflexivity|].
    simpl in Hb. apply N.eqb_eq in Hb. subst y. reflexivity.
  - intros H. exists t, []. rewrite app_nil_r. auto.
Qed.

(** [.*?m\s*$] for a two-character marker [m] that ends with no
    whitespace: the text, without its trailing whitespace, ends with [m],
    and has no line feed before that [m]. *)
Lemma matches_closer (c d : char) (r : pystr) :
  is_space d = false ->
  matches (Star Dot :: map Lit [c; d] ++ [Star Space; Eos]) r =
  (let body := rstrip r in
   ends_with [c; d] body &&
   Spec.no_line_feed (firstn (List.length body - 2) body)).
Proof.
  intros Hd. apply eq_true_iff_eq. rewrite matches_star_iff. split.
  - intros (a & b & -> & Ha & Hb).
    rewrite matches_literal, andb_true_iff in Hb. destruct Hb as [Hm Hws].
    apply starts_with_iff in Hm as (ws & ->).
    rewrite skipn_app, skipn_all, Nat.sub_diag in Hws. simpl in Hws.
    rewrite matches_trailing_space in Hws.
    replace (a ++ [c; d] ++ ws) with ((a ++ [c]) ++ d :: ws)
      by (rewrite <- app_assoc; reflexivity).
    cbv zeta. rewrite rstrip_closed by assumption.
    rewrite <- app_assoc. simpl app. apply andb_true_iff. split.
    + apply ends_with_iff. exists a; reflexivity.
    + rewrite length_app. simpl List.length.
      replace (List.length a + 2 - 2) with (List.length a) by lia.
      rewrite firstn_app, firstn_all, Nat.sub_diag. simpl.
      rewrite app_nil_r. exact Ha.
  - cbv zeta. rewrite andb_true_iff. intros [He Hn].
    destruct (rstrip_split r) as (ws & E & Hws).
    apply ends_with_iff in He as (q & Hq). rewrite Hq in Hn.
    rewrite length_app in Hn. simpl List.length in Hn.
    replace (List.length q + 2 - 2) with (List.length q) in Hn by lia.
    rewrite firstn_app, firstn_all, Nat.sub_diag in Hn. simpl in Hn.
    rewrite app_nil_r in Hn.
    exists q, ([c; d] ++ ws). repeat split.
    + rewrite E at 1. rewrite Hq, <- app_assoc. reflexivity.
    + exact Hn.
    + rewrite matches_literal, starts_with_app.
      rewrite skipn_app, skipn_all, Nat.sub_diag. simpl skipn. simpl app.
      rewrite matches_trailing_space. exact Hws.
Qed.

(** A found [m...] starts with an occurrence of [m]. *)
Lemma re_search_literal (m : pystr) (p : pattern) (s : pystr) :
  re_search (map Lit m ++ p) s = true -> contains m s = true.
Proof.
  induction s as [|x s IH]; simpl; rewrite matches_literal.
  - rewrite !orb_false_r. intros H. apply andb_true_iff in H. tauto.
  - rewrite !orb_true_iff. intros [H | H].
    + apply andb_true_iff in H. tauto.
    + right. apply IH. exact H.
Qed.

End ReFacts.

(* ------------------------------------------------------------------ *)
(** * The engine of the specification *)

Module SpecFacts.
Import Py PyFacts.
Import Spec.

(** One line through the engine. *)
Lemma strip_lines_from_remove (r : rule) (b b' : bool) (line : pystr)
      (rest : list pystr) :
  r b line = (Remove, b') ->
  strip_lines_from r b (line :: rest) =
  (fst (strip_lines_from r b' rest), S (snd (strip_lines_from r b' rest))).
Proof.
  intros E. cbn [strip_lines_from]. rewrite E.
  destruct (strip_lines_from r b' rest); reflexivity.
Qed.

Lemma strip_lines_from_retain (r : rule) (b b' : bool) (line : pystr)
      (rest : list pystr) :
  r b line = (Retain, b') ->
  strip_lines_from r b (line :: rest) =
  (line :: fst (strip_lines_from r b' rest), snd (strip_lines_from r b' rest)).
Proof.
  intros E. cbn [strip_lines_from]. rewrite E.
  destruct (strip_lines_from r b' rest); reflexivity.
Qed.

Lemma strip_lines_from_length (r : rule) (lines : list pystr) (b : bool) :
  List.length (fst (strip_lines_from r b lines)) + snd (strip_lines_from r b lines)
  = List.length lines.
Proof.
  revert b; induction lines as [|line rest IH]; intros b; simpl; [reflexivity|].
  destruct (r b line) as [v b']. specialize (IH b').
  destruct (strip_lines_from r b' rest) as [kept n].
  destruct v; simpl in *; lia.
Qed.

Lemma strip_lines_from_subsequence (r : rule) (lines : list pystr) (b : bool) :
  subsequence (fst (strip_lines_from r b lines)) lines.
Proof.
  revert b; induction lines as [|line rest IH]; intros b; simpl.
  - constructor.
  - destruct (r b line) as [v b']. specialize (IH b').
    destruct (strip_lines_from r b' rest) as [kept n].
    destruct v; simpl in *; constructor; assumption.
Qed.

Lemma subsequence_In {A : Type} (kept lines : list A) :
  subsequence kept lines -> forall x, In x kept -> In x lines.
Proof.
  induction 1 as [|x kept lines _ IH|x kept lines _ IH]; intros y Hy.
  - exact Hy.
  - destruct Hy as [-> | Hy]; [left; reflexivity | right; auto].
  - right; auto.
Qed.

Lemma subsequence_refl {A : Type} (l : list A) : subsequence l l.
Proof. induction l; constructor; assumption. Qed.

(** Every line a rule set retains is one it retains at the start of a
    file, when the rule set is settled. *)
Lemma strip_lines_from_retained (r : rule) (lines : list pystr) (b : bool) :
  Link.settled r ->
  Forall (fun line => r false line = (Retain, false))
         (fst (strip_lines_from r b lines)).
Proof.
  intros Hr. revert b; induction lines as [|line rest IH]; intros b; simpl.
  - constructor.
  - destruct (r b line) as [v b'] eqn:E. specialize (IH b').
    destruct (strip_lines_from r b' rest) as [kept n].
    destruct v; simpl in *; [assumption|].
    constructor; [exact (Hr _ _ _ E) | assumption].
Qed.

Lemma strip_lines_from_fixed (r : rule) (lines : list pystr) :
  Forall (fun line => r false line = (Retain, false)) lines ->
  strip_lines_from r false lines = (lines, 0).
Proof.
  induction 1 as [|line rest E _ IH]; simpl; [reflexivity|].
  rewrite E, IH. reflexivity.
Qed.

Lemma strip_lines_idempotent (r : rule) (lines : list pystr) :
  Link.settled r ->
  strip_lines r (fst (strip_lines r lines)) = (fst (strip_lines r lines), 0).
Proof.
  intros Hr. apply strip_lines_from_fixed.
  apply strip_lines_from_retained. exact Hr.
Qed.

Lemma clike_rule_settled : Link.settled clike_rule.
Proof.
  intros b line b'. unfold clike_rule.
  destruct b; [discriminate|].
  destruct (begins (py "//") line); [discriminate|].
  destruct (begins (py "/*") line); [discriminate|].
  reflexivity.
Qed.

Lemma xml_rule_settled : Link.settled xml_rule.
Proof.
  intros b line b'. unfold xml_rule.
  destruct b; [discriminate|].
  destruct (starts_with (py "<!--") (strip line)); [discriminate|].
  reflexivity.
Qed.

Lemma hash_rule_settled : Link.settled hash_rule.
Proof.
  intros b line b'. unfold hash_rule.
  destruct (hash_retains line); [reflexivity | discriminate].
Qed.

(** A rule set without state is a filter. *)
Lemma strip_lines_from_hash (lines : list pystr) (b : bool) :
  strip_lines_from hash_rule b lines =
  (filter hash_retains lines,
   List.length (filter (fun line => negb (hash_retains line)) lines)).
Proof.
  induction lines as [|line rest IH]; [reflexivity|].
  cbn [strip_lines_from filter]. unfold hash_rule at 1. rewrite IH.
  destruct (hash_retains line); reflexivity.
Qed.

End SpecFacts.

(* ------------------------------------------------------------------ *)
(** * The loops of [remove_full_line_comments] *)

Module LinesFacts.
Import Py Re PyFacts ReFacts RemoveCommentedLines.

(** What the patterns test, in terms of the line. *)

Lemma re_match_slashes (line : pystr) :
  re_match RE_SLASHES line = Spec.begins (py "//") line.
Proof.
  unfold re_match, RE_SLASHES, lit, Spec.begins.
  rewrite <- (app_nil_r (map Lit (py "//"))).
  change (py "//") with [47; 47]%N.
  rewrite matches_marker by reflexivity. apply andb_true_r.
Qed.

Lemma re_match_block_start (line : pystr) :
  re_match RE_BLOCK_START line = Spec.begins (py "/*") line.
Proof.
  unfold re_match, RE_BLOCK_START, lit, Spec.begins.
  rewrite <- (app_nil_r (map Lit (py "/*"))).
  change (py "/*") with [47; 42]%N.
  rewrite matches_marker by reflexivity. apply andb_true_r.
Qed.

Lemma re_match_hash (line : pystr) :
  re_match RE_HASH line = Spec.begins (py "#") line.
Proof.
  unfold re_match, RE_HASH, lit, Spec.begins.
  rewrite <- (app_nil_r (map Lit (py "#"))).
  change (py "#") with [35]%N.
  rewrite matches_marker by reflexivity. apply andb_true_r.
Qed.

Lemma re_match_block_one_line (line : pystr) :
  re_match RE_BLOCK_ONE_LINE line =
  Spec.begins (py "/*") line && Spec.closes_after_opener line.
Proof.
  unfold re_match, RE_BLOCK_ONE_LINE, lit, Spec.begins, Spec.closes_after_opener.
  change (py "/*") with [47; 42]%N. change (py "*/") with [42; 47]%N.
  rewrite matches_marker by reflexivity.
  rewrite matches_closer by reflexivity. reflexivity.
Qed.

(** [closes_after_opener], spelled out on the text after the opener. *)
Lemma closes_after_opener_iff (line : pystr) :
  Spec.closes_after_opener line = true <->
  exists mid ws,
    skipn 2 (lstrip line) = mid ++ py "*/" ++ ws /\
    Spec.no_line_feed mid = true /\
    forallb is_space ws = true.
Proof.
  assert (M : matches (Star Dot :: map Lit (py "*/") ++ [Star Space; Eos])
                (skipn 2 (lstrip line))
              = Spec.closes_after_opener line)
    by exact (matches_closer 42%N 47%N (skipn 2 (lstrip line)) eq_refl).
  rewrite <- M, matches_star_iff. split.
  - intros (mid & b & E & Hmid & Hb).
    rewrite matches_literal, andb_true_iff in Hb. destruct Hb as [Hm Hws].
    apply starts_with_iff in Hm as (ws & ->).
    rewrite skipn_app, skipn_all, Nat.sub_diag in Hws. simpl in Hws.
    rewrite matches_trailing_space in Hws.
    exists mid, ws. auto.
  - intros (mid & ws & E & Hmid & Hws).
    exists mid, (py "*/" ++ ws). repeat split; try assumption.
    rewrite matches_literal, starts_with_app.
    rewrite skipn_app, skipn_all, Nat.sub_diag. simpl skipn. simpl app.
    rewrite matches_trailing_space. exact Hws.
Qed.

(** Inside a block, both tests of the source come to one: the line has a
    closer somewhere. *)
Lemma contains_closer_lstrip (line : pystr) :
  contains (py "*/") (lstrip line) = contains (py "*/") line.
Proof. exact (contains_lstrip 42%N [47%N] line eq_refl). Qed.

Lemma contains_arrow_strip (line : pystr) :
  contains (py "-->") (strip line) = contains (py "-->") line.
Proof. exact (contains_strip [45%N] 45%N 62%N line eq_refl eq_refl). Qed.

Lemma block_end_test (line : pystr) :
  re_search RE_BLOCK_END (lstrip line) || contains (py "*/") (lstrip line)
  = contains (py "*/") line.
Proof.
  rewrite contains_closer_lstrip.
  destruct (re_search RE_BLOCK_END (lstrip line)) eqn:E; [|reflexivity].
  apply (re_search_literal (py "*/") [Star Space; Eos]) in E.
  rewrite contains_closer_lstrip in E. rewrite E. reflexivity.
Qed.

(** Each round of a loop does what the rule set of its dialect says. *)

Lemma clike_body_rule (st : loop_state) (line : pystr) :
  clike_body st line = Link.act (Spec.clike_rule (in_block st) line) line st.
Proof.
  unfold clike_body, Spec.clike_rule.
  rewrite block_end_test, re_match_slashes, re_match_block_start,
    re_match_block_one_line.
  destruct st as [b res n]; simpl in_block. destruct b.
  - destruct (contains (py "*/") line); reflexivity.
  - destruct (Spec.begins (py "//") line); [reflexivity|].
    destruct (Spec.begins (py "/*") line); [|reflexivity].
    destruct (Spec.closes_after_opener line); reflexivity.
Qed.

Lemma xml_body_rule (st : loop_state) (line : pystr) :
  xml_body st line = Link.act (Spec.xml_rule (in_block st) line) line st.
Proof.
  unfold xml_body, Spec.xml_rule.
  rewrite contains_arrow_strip.
  destruct st as [b res n]; simpl in_block. destruct b.
  - destruct (contains _ line); reflexivity.
  - destruct (starts_with (py "<!--") (strip line)); [|reflexivity].
    destruct (ends_with _ (strip line)); reflexivity.
Qed.

Lemma hash_body_rule (st : loop_state) (line : pystr) :
  hash_body st line = Link.act (Spec.hash_rule (in_block st) line) line st.
Proof.
  unfold hash_body, Spec.hash_rule, Spec.hash_retains.
  rewrite re_match_hash. fold (Spec.begins (py "#!") line).
  destruct st as [b res n]; simpl in_block.
  destruct (Spec.begins (py "#!") line); [reflexivity|].
  destruct (Spec.begins (py "#") line); reflexivity.
Qed.

(** A loop whose rounds follow a rule set returns what the engine of the
    specification returns on that rule set. *)
Section Loop.

Variable body : loop_state -> pystr -> loop_state.
Variable r : Spec.rule.
Hypothesis body_rule :
  forall st line, body st line = Link.act (r (in_block st) line) line st.

Lemma loop_outcome (lines : list pystr) (st : loop_state) :
  outcome (fold_left body lines st) =
  (result st ++ fst (Spec.strip_lines_from r (in_block st) lines),
   removed st + snd (Spec.strip_lines_from r (in_block st) lines)).
Proof.
  revert st; induction lines as [|line rest IH]; intros st; simpl.
  - unfold outcome. rewrite app_nil_r, Nat.add_0_r. reflexivity.
  - rewrite IH, body_rule.
    destruct (r (in_block st) line) as [v b].
    destruct v; simpl;
      destruct (Spec.strip_lines_from r b rest) as [kept n]; simpl;
      f_equal; (lia || (rewrite <- app_assoc; reflexivity) || reflexivity).
Qed.

Lemma loop_from_start (lines : list pystr) :
  outcome (fold_left body lines start) = Spec.strip_lines r lines.
Proof.
  rewrite loop_outcome. simpl. unfold Spec.strip_lines.
  destruct (Spec.strip_lines_from r false lines); reflexivity.
Qed.

End Loop.

(** [remove_full_line_comments] is the engine of the specification on the
    dialect of the extension. *)
Lemma remove_full_line_comments_strip (lines : list pystr) (ext : pystr) :
  remove_full_line_comments lines ext = Link.strip lines (classify ext).
Proof.
  unfold remove_full_line_comments, classify.
  destruct (mem ext CLIKE_EXTS).
  - apply loop_from_start, clike_body_rule.
  - destruct (mem ext XML_EXTS).
    + apply loop_from_start, xml_body_rule.
    + destruct (mem ext HASH_EXTS).
      * apply loop_from_start, hash_body_rule.
      * reflexivity.
Qed.

(** The branch [remove_full_line_comments] takes is the one of the
    dialect of the extension. *)
Lemma remove_full_line_comments_branch (lines : list pystr) (ext : pystr) :
  remove_full_line_comments lines ext =
  match classify ext with
  | CLikeBlock => outcome (fold_left clike_body lines start)
  | XmlBlock => outcome (fold_left xml_body lines start)
  | HashLine => outcome (fold_left hash_body lines start)
  | NoDialect => (lines, 0)
  end.
Proof.
  unfold remove_full_line_comments, classify.
  destruct (mem ext CLIKE_EXTS); [reflexivity|].
  destruct (mem ext XML_EXTS); [reflexivity|].
  destruct (mem ext HASH_EXTS); reflexivity.
Qed.

End LinesFacts.

(* ------------------------------------------------------------------ *)
(** * Extensions of file names *)

Module ExtFacts.
Import Py PyFacts.

Lemma rfind_from_app (c : char) (a b : pystr) (i acc : Z) :
  rfind_from c (a ++ b) i acc =
  rfind_from c b (i + Z.of_nat (List.length a)) (rfind_from c a i acc).
Proof.
  revert i acc; induction a as [|x a IH]; intros i acc.
  - simpl. rewrite Z.add_0_r. reflexivity.
  - cbn [app rfind_from List.length]. rewrite IH. f_equal. lia.
Qed.

(** [rfind] answers the start value or an index of the text. *)
Lemma rfind_from_range (c : char) (s : pystr) (i acc : Z) :
  rfind_from c s i acc = acc \/
  (i <= rfind_from c s i acc < i + Z.of_nat (List.length s))%Z.
Proof.
  revert i acc; induction s as [|x s IH]; intros i acc; [left; reflexivity|].
  cbn [rfind_from List.length].
  destruct (IH (i + 1)%Z (if N.eqb x c then i else acc)) as [E | R].
  - rewrite E. destruct (N.eqb x c); [right; lia | left; reflexivity].
  - right. lia.
Qed.

Lemma rfind_range (c : char) (s : pystr) :
  (-1 <= rfind c s < Z.of_nat (List.length s))%Z.
Proof.
  unfold rfind. destruct (rfind_from_range c s 0 (-1)) as [-> | R]; lia.
Qed.

(** In a name that ends in [.gradle.kts] the last dot is the one before
    [kts], and no separator stands after the stem. *)
Lemma rfind_dot_gradle_kts (stem : pystr) :
  rfind 46%N (stem ++ py ".gradle.kts") = (Z.of_nat (List.length stem) + 7)%Z.
Proof.
  unfold rfind. rewrite rfind_from_app. cbn. lia.
Qed.

Lemma rfind_sep_gradle_kts (stem : pystr) :
  rfind 47%N (stem ++ py ".gradle.kts") = rfind 47%N stem.
Proof.
  unfold rfind. rewrite rfind_from_app. reflexivity.
Qed.

Lemma skipn_stem (stem tail : pystr) (k : nat) :
  skipn (List.length stem + k) (stem ++ tail) = skipn k tail.
Proof.
  rewrite skipn_app.
  replace (List.length stem + k - List.length stem) with k by lia.
  rewrite skipn_all2 by lia. reflexivity.
Qed.

Lemma splitext_gradle_kts (stem : pystr) :
  snd (OsPath.splitext (stem ++ py ".gradle.kts")) = py ".kts".
Proof.
  unfold OsPath.splitext.
  rewrite rfind_dot_gradle_kts, rfind_sep_gradle_kts.
  pose proof (rfind_range 47%N stem) as R.
  set (sep := rfind 47%N stem) in *.
  assert (Hlt : (sep <? Z.of_nat (List.length stem) + 7)%Z = true)
    by (apply Z.ltb_lt; lia).
  rewrite Hlt. cbn [andb].
  assert (Hdots : existsb (fun c => negb (N.eqb c 46%N))
            (slice (stem ++ py ".gradle.kts") (sep + 1)
                   (Z.of_nat (List.length stem) + 7)) = true).
  { unfold slice.
    set (a := Z.to_nat (sep + 1)).
    assert (Ha : a <= List.length stem) by lia.
    replace (Z.to_nat (Z.of_nat (List.length stem) + 7))
      with (List.length stem + 7) by lia.
    rewrite skipn_app. replace (a - List.length stem) with 0 by lia.
    cbn [skipn]. rewrite firstn_app, length_skipn.
    replace (List.length stem + 7 - a - (List.length stem - a)) with 7 by lia.
    rewrite existsb_app. apply orb_true_iff. right. reflexivity. }
  rewrite Hdots. cbn [snd].
  replace (Z.to_nat (Z.of_nat (List.length stem) + 7))
    with (List.length stem + 7) by lia.
  apply skipn_stem.
Qed.

(** The extension [remove_commented_lines.py] works with, for a file
    whose name ends in [.gradle.kts]. *)
Lemma file_ext_gradle_kts (stem : pystr) :
  RemoveCommentedLines.file_ext (stem ++ py ".gradle.kts") = py ".kts".
Proof.
  unfold RemoveCommentedLines.file_ext. rewrite splitext_gradle_kts.
  reflexivity.
Qed.

(** [remove_comments.py] finds the same last segment: its suffix is never
    empty on such a name, so the two-segment case is not taken, and
    [.kts] is in neither of its tables. *)
Lemma suffix_gradle_kts (stem : pystr) :
  RemoveComments.suffix (stem ++ py ".gradle.kts") = py ".kts".
Proof.
  unfold RemoveComments.suffix. rewrite rfind_dot_gradle_kts, length_app.
  change (List.length (py ".gradle.kts")) with 11.
  assert (H : ((0 <? Z.of_nat (List.length stem) + 7) &&
               (Z.of_nat (List.length stem) + 7
                <? Z.of_nat (List.length stem + 11) - 1))%Z = true).
  { apply andb_true_iff; split; apply Z.ltb_lt; lia. }
  rewrite H.
  replace (Z.to_nat (Z.of_nat (List.length stem) + 7))
    with (List.length stem + 7) by lia.
  apply skipn_stem.
Qed.

Lemma process_file_gradle_kts (stem : pystr) (lines : list pystr) :
  RemoveComments.file_ext (stem ++ py ".gradle.kts") = py ".kts" /\
  RemoveComments.process_file (stem ++ py ".gradle.kts") lines = (lines, false).
Proof.
  assert (E : RemoveComments.file_ext (stem ++ py ".gradle.kts") = py ".kts").
  { unfold RemoveComments.file_ext. rewrite suffix_gradle_kts. reflexivity. }
  split; [exact E|].
  unfold RemoveComments.process_file. rewrite E. reflexivity.
Qed.

End ExtFacts.

(* ------------------------------------------------------------------ *)
(** * The properties of the specification *)

Import Py RemoveCommentedLines.

(** C1, as amended.  For every extension of the CLikeBlock dialect and
    every sequence of lines, [remove_full_line_comments] returns what the
    ordered rules give: while [in_block] is true a line is removed, and
    [in_block] is cleared exactly when the line contains [*/]; otherwise a
    line that begins, after leading whitespace, with [//] is removed;
    otherwise a line that begins with [/*] is removed, and [in_block]
    stays false when what follows that opener on the line ends with [*/]
    followed only by whitespace, with no line feed before that closer,
    and becomes true otherwise; every other line is retained.  The lines
    [a();], [/* start], [ middle], [ end */], [b();] yield [a();] and
    [b();] with 3 lines removed, whatever follows the closer on its
    line. *)
Theorem clike_rules_followed (ext : pystr) (lines : list pystr) :
  classify ext = CLikeBlock ->
  remove_full_line_comments lines ext
  = Spec.strip_lines Spec.clike_rule lines /\
  forall after : pystr,
    remove_full_line_comments
      [ln "a();"; ln "/* start"; ln " middle"; py " end */" ++ after; py "b();"]
      ext
    = ([ln "a();"; py "b();"], 3).
Proof.
  intros H. split.
  - rewrite LinesFacts.remove_full_line_comments_strip, H. reflexivity.
  - intros after.
    rewrite LinesFacts.remove_full_line_comments_strip, H.
    assert (E : Spec.clike_rule true (py " end */" ++ after)
                = (Spec.Remove, false)).
    { unfold Spec.clike_rule.
      replace (contains (py "*/") (py " end */" ++ after)) with true;
        [reflexivity|].
      symmetry. apply PyFacts.contains_iff.
      exists (py " end "), after. reflexivity. }
    unfold Link.strip, Spec.strip_lines.
    rewrite (SpecFacts.strip_lines_from_retain
               Spec.clike_rule false false (ln "a();") _ eq_refl).
    rewrite (SpecFacts.strip_lines_from_remove
               Spec.clike_rule false true (ln "/* start") _ eq_refl).
    rewrite (SpecFacts.strip_lines_from_remove
               Spec.clike_rule true true (ln " middle") _ eq_refl).
    rewrite (SpecFacts.strip_lines_from_remove
               Spec.clike_rule true false (py " end */" ++ after) _ E).
    reflexivity.
Qed.

Lemma clike_rules_followed_witness :
  classify (py ".dart") = CLikeBlock /\
  (remove_full_line_comments [ln "/* a */ b();"; ln "c(); */"; ln "d();"]
     (py ".dart")
   = Spec.strip_lines Spec.clike_rule
       [ln "/* a */ b();"; ln "c(); */"; ln "d();"] /\
   forall after : pystr,
     remove_full_line_comments
       [ln "a();"; ln "/* start"; ln " middle"; py " end */" ++ after;
        py "b();"]
       (py ".dart")
     = ([ln "a();"; py "b();"], 3)).
Proof.
  split; [reflexivity|].
  exact (clike_rules_followed (py ".dart")
           [ln "/* a */ b();"; ln "c(); */"; ln "d();"] eq_refl).
Defined.

(** C1 as stated fails on the line [/*/]: it begins with [/*] and ends
    with [*/], but its closer is not after its opener, so the code enters
    the block and drops the next line, which the rule read on the whole
    line retains. *)
Lemma clike_whole_line_rule_fails :
  classify (py ".java") = CLikeBlock /\
  remove_full_line_comments [ln "/*/"; ln "b();"] (py ".java") = ([], 2) /\
  Spec.strip_lines Spec.clike_rule_whole_line [ln "/*/"; ln "b();"]
  = ([ln "b();"], 1) /\
  remove_full_line_comments [ln "/*/"; ln "b();"] (py ".java")
  <> Spec.strip_lines Spec.clike_rule_whole_line [ln "/*/"; ln "b();"].
Proof.
  repeat split; try reflexivity. vm_compute. discriminate.
Qed.

(** C2.  For every list of lines and every extension, the number of
    retained lines plus the count of removed lines is the number of input
    lines. *)
Theorem retained_plus_removed (lines : list pystr) (ext : pystr) :
  List.length (fst (remove_full_line_comments lines ext))
  + snd (remove_full_line_comments lines ext)
  = List.length lines.
Proof.
  rewrite LinesFacts.remove_full_line_comments_strip.
  destruct (classify ext); simpl;
    try apply SpecFacts.strip_lines_from_length. lia.
Qed.

(** C3.  The engine is idempotent: for every list of lines and every
    extension, [remove_full_line_comments] on its own retained lines, with
    the same extension, returns them unchanged and removes 0 lines. *)
Theorem second_pass_removes_nothing (lines : list pystr) (ext : pystr) :
  remove_full_line_comments (fst (remove_full_line_comments lines ext)) ext
  = (fst (remove_full_line_comments lines ext), 0).
Proof.
  rewrite !LinesFacts.remove_full_line_comments_strip.
  destruct (classify ext); simpl.
  - apply SpecFacts.strip_lines_idempotent, SpecFacts.clike_rule_settled.
  - apply SpecFacts.strip_lines_idempotent, SpecFacts.xml_rule_settled.
  - apply SpecFacts.strip_lines_idempotent, SpecFacts.hash_rule_settled.
  - reflexivity.
Qed.

(** C4.  For every extension of the XmlBlock dialect and every sequence
    of lines, the engine removes a line while [in_block] is true, clearing
    [in_block] exactly when the line contains [-->]; removes a line whose
    trimmed content starts with [<!--], leaving [in_block] false when that
    content also ends with [-->] and setting it otherwise; and retains
    every other line.  The lines [<!-- note -->] and [<tag/>] yield
    [<tag/>] with 1 line removed. *)
Theorem xml_rules_followed (ext : pystr) (lines : list pystr) :
  classify ext = XmlBlock ->
  remove_full_line_comments lines ext
  = Spec.strip_lines Spec.xml_rule lines /\
  remove_full_line_comments [ln "<!-- note -->"; py "<tag/>"] ext
  = ([py "<tag/>"], 1).
Proof.
  intros H. rewrite !LinesFacts.remove_full_line_comments_strip, H.
  split; reflexivity.
Qed.

Lemma xml_rules_followed_witness :
  classify (py ".plist") = XmlBlock /\
  (remove_full_line_comments [ln "<!--"; ln "<a/> -->"; ln "<b/>"] (py ".plist")
   = Spec.strip_lines Spec.xml_rule [ln "<!--"; ln "<a/> -->"; ln "<b/>"] /\
   remove_full_line_comments [ln "<!-- note -->"; py "<tag/>"] (py ".plist")
   = ([py "<tag/>"], 1)).
Proof.
  split; [reflexivity|].
  exact (xml_rules_followed (py ".plist")
           [ln "<!--"; ln "<a/> -->"; ln "<b/>"] eq_refl).
Defined.

(** C5.  For every extension of the HashLine dialect, a line that starts
    with [#!] after its leading whitespace is retained; otherwise a line
    that starts with [#] after leading whitespace is removed; every other
    line is retained; retained lines are verbatim.  A file whose first
    line is [#!/bin/sh] retains that line verbatim. *)
Theorem hash_rules_followed (ext : pystr) (lines : list pystr) :
  classify ext = HashLine ->
  remove_full_line_comments lines ext
  = (filter Spec.hash_retains lines,
     List.length (filter (fun line => negb (Spec.hash_retains line)) lines)) /\
  forall (eol : pystr) (rest : list pystr),
    fst (remove_full_line_comments ((py "#!/bin/sh" ++ eol) :: rest) ext)
    = (py "#!/bin/sh" ++ eol) :: fst (remove_full_line_comments rest ext).
Proof.
  intros H. split.
  - rewrite LinesFacts.remove_full_line_comments_strip, H.
    apply SpecFacts.strip_lines_from_hash.
  - intros eol rest.
    rewrite !LinesFacts.remove_full_line_comments_strip, H. simpl Link.strip.
    unfold Spec.strip_lines. rewrite !SpecFacts.strip_lines_from_hash.
    reflexivity.
Qed.

Lemma hash_rules_followed_witness :
  classify (py ".sh") = HashLine /\
  (remove_full_line_comments [ln "  #!x"; ln "  # y"; ln "z # w"] (py ".sh")
   = (filter Spec.hash_retains [ln "  #!x"; ln "  # y"; ln "z # w"],
      List.length
        (filter (fun line => negb (Spec.hash_retains line))
           [ln "  #!x"; ln "  # y"; ln "z # w"])) /\
   forall (eol : pystr) (rest : list pystr),
     fst (remove_full_line_comments ((py "#!/bin/sh" ++ eol) :: rest) (py ".sh"))
     = (py "#!/bin/sh" ++ eol) :: fst (remove_full_line_comments rest (py ".sh"))).
Proof.
  split; [reflexivity|].
  exact (hash_rules_followed (py ".sh")
           [ln "  #!x"; ln "  # y"; ln "z # w"] eq_refl).
Defined.

(** C6.  For every input and every extension, the retained lines are a
    subsequence of the input lines: each is one of the input lines, whole
    and with its terminator, and they stand in the order of the input. *)
Theorem retained_lines_are_input_lines (lines : list pystr) (ext : pystr) :
  Spec.subsequence (fst (remove_full_line_comments lines ext)) lines /\
  Forall (fun line => In line lines)
         (fst (remove_full_line_comments lines ext)).
Proof.
  assert (S : Spec.subsequence (fst (remove_full_line_comments lines ext)) lines).
  { rewrite LinesFacts.remove_full_line_comments_strip.
    destruct (classify ext); simpl;
      try apply SpecFacts.strip_lines_from_subsequence.
    apply SpecFacts.subsequence_refl. }
  split; [exact S|]. apply Forall_forall.
  exact (SpecFacts.subsequence_In _ _ S).
Qed.

(** C7.  The dialect [remove_full_line_comments] selects is the one of
    the table: CLikeBlock exactly for [.dart], [.kt], [.kts], [.java],
    [.swift], [.m], [.mm], [.js], [.ts], [.tsx], [.jsx] and [.gradle];
    XmlBlock exactly for [.xml] and [.plist]; HashLine exactly for [.sh],
    [.yaml] and [.yml]; and a file whose name ends in [.gradle.kts] is
    given the CLikeBlock dialect. *)
Theorem dialect_table_exact :
  (forall ext lines,
      remove_full_line_comments lines ext =
      match classify ext with
      | CLikeBlock => outcome (fold_left clike_body lines start)
      | XmlBlock => outcome (fold_left xml_body lines start)
      | HashLine => outcome (fold_left hash_body lines start)
      | NoDialect => (lines, 0)
      end) /\
  (forall ext, classify ext = CLikeBlock <-> In ext Spec.clike_table) /\
  (forall ext, classify ext = XmlBlock <-> In ext Spec.xml_table) /\
  (forall ext, classify ext = HashLine <-> In ext Spec.hash_table) /\
  (forall stem, classify (file_ext (stem ++ py ".gradle.kts")) = CLikeBlock).
Proof.
  split; [|split; [|split; [|split]]].
  - intros ext lines. apply LinesFacts.remove_full_line_comments_branch.
  - intros ext. unfold classify.
    destruct (mem ext CLIKE_EXTS) eqn:E1.
    + apply PyFacts.mem_In in E1. tauto.
    + split.
      * destruct (mem ext XML_EXTS); [discriminate|].
        destruct (mem ext HASH_EXTS); discriminate.
      * intros H. apply PyFacts.mem_In in H.
        change Spec.clike_table with CLIKE_EXTS in H. congruence.
  - intros ext. unfold classify. split.
    + destruct (mem ext CLIKE_EXTS); [discriminate|].
      destruct (mem ext XML_EXTS) eqn:E2.
      * intros _. apply PyFacts.mem_In in E2. exact E2.
      * destruct (mem ext HASH_EXTS); discriminate.
    + intros H. apply PyFacts.mem_In in H.
      change Spec.xml_table with XML_EXTS in H. rewrite H.
      simpl in H. unfold mem in H. simpl in H.
      rewrite !orb_true_iff in H.
      destruct H as [H | [H | H]]; try discriminate;
        apply PyFacts.str_eqb_eq in H; subst ext; reflexivity.
  - intros ext. unfold classify. split.
    + destruct (mem ext CLIKE_EXTS); [discriminate|].
      destruct (mem ext XML_EXTS); [discriminate|].
      destruct (mem ext HASH_EXTS) eqn:E3; [|discriminate].
      intros _. apply PyFacts.mem_In in E3. exact E3.
    + intros H. apply PyFacts.mem_In in H.
      change Spec.hash_table with HASH_EXTS in H. rewrite H.
      unfold mem in H. simpl in H.
      rewrite !orb_true_iff in H.
      destruct H as [H | [H | [H | H]]]; try discriminate;
        apply PyFacts.str_eqb_eq in H; subst ext; reflexivity.
  - intros stem. rewrite ExtFacts.file_ext_gradle_kts. reflexivity.
Qed.

Lemma dialect_table_exact_witness :
  In (py ".tsx") Spec.clike_table /\ classify (py ".tsx") = CLikeBlock /\
  classify (file_ext (py "android/build.gradle.kts")) = CLikeBlock.
Proof.
  assert (H : In (py ".tsx") Spec.clike_table)
    by (do 9 right; left; reflexivity).
  split; [exact H|]. split.
  - exact (proj2 (proj1 (proj2 dialect_table_exact) (py ".tsx")) H).
  - exact (proj2 (proj2 (proj2 (proj2 dialect_table_exact)))
             (py "android/build")).
Defined.

(** C8.  For every extension outside the three recognized sets,
    [remove_full_line_comments], a total function, returns the input
    lines unchanged and a removed count of 0. *)
Theorem unknown_extension_passes_through (ext : pystr) (lines : list pystr) :
  ~ In ext CLIKE_EXTS -> ~ In ext XML_EXTS -> ~ In ext HASH_EXTS ->
  remove_full_line_comments lines ext = (lines, 0).
Proof.
  intros H1 H2 H3. unfold remove_full_line_comments.
  destruct (mem ext CLIKE_EXTS) eqn:E1;
    [apply PyFacts.mem_In in E1; contradiction|].
  destruct (mem ext XML_EXTS) eqn:E2;
    [apply PyFacts.mem_In in E2; contradiction|].
  destruct (mem ext HASH_EXTS) eqn:E3;
    [apply PyFacts.mem_In in E3; contradiction|].
  reflexivity.
Qed.

Lemma unknown_extension_passes_through_witness :
  ~ In (py ".md") CLIKE_EXTS /\ ~ In (py ".md") XML_EXTS /\
  ~ In (py ".md") HASH_EXTS /\
  remove_full_line_comments [ln "# title"; ln "// text"; ln "<!-- x -->"]
    (py ".md")
  = ([ln "# title"; ln "// text"; ln "<!-- x -->"], 0).
Proof.
  assert (H1 : ~ In (py ".md") CLIKE_EXTS)
    by (vm_compute; intuition discriminate).
  assert (H2 : ~ In (py ".md") XML_EXTS)
    by (vm_compute; intuition discriminate).
  assert (H3 : ~ In (py ".md") HASH_EXTS)
    by (vm_compute; intuition discriminate).
  split; [exact H1 | split; [exact H2 | split; [exact H3 |]]].
  exact (unknown_extension_passes_through (py ".md")
           [ln "# title"; ln "// text"; ln "<!-- x -->"] H1 H2 H3).
Defined.

(** C9.  The two engines are not extensionally equal: on an XML input
    whose block comment is opened by [<!--] on one line and closed by
    [-->] on the next, [remove_full_line_comments] removes both lines,
    and the filter of [remove_comments.py], which drops only comments
    that fit on one line, retains both. *)
Theorem xml_block_engines_differ :
  exists opener closer : pystr,
    starts_with (py "<!--") (strip opener) = true /\
    contains (py "-->") opener = false /\
    contains (py "-->") closer = true /\
    remove_full_line_comments [opener; closer] (py ".xml") = ([], 2) /\
    RemoveComments.xml_filter [opener; closer] = ([opener; closer], false) /\
    RemoveComments.process_file (py "strings.xml") [opener; closer]
    = ([opener; closer], false) /\
    fst (remove_full_line_comments [opener; closer] (py ".xml"))
    <> fst (RemoveComments.xml_filter [opener; closer]).
Proof.
  exists (ln "<!-- a"), (ln "b -->").
  split; [reflexivity|]. split; [reflexivity|]. split; [reflexivity|].
  split; [reflexivity|]. split; [reflexivity|]. split; [reflexivity|].
  vm_compute. discriminate.
Qed.

(** C10.  For every CLikeBlock input, a line reached while [in_block] is
    false that contains a closer [*/] but begins, after leading
    whitespace, with neither [//] nor [/*] is retained unchanged and
    leaves the block state as it is: the loop variables change only by
    that line appended to [result], and the lines after it are handled as
    from the start of a file. *)
Theorem stray_closer_is_retained
        (ext : pystr) (before : list pystr) (line : pystr)
        (rest : list pystr) :
  classify ext = CLikeBlock ->
  in_block (fold_left clike_body before start) = false ->
  contains (py "*/") line = true ->
  Spec.begins (py "//") line = false ->
  Spec.begins (py "/*") line = false ->
  fold_left clike_body (before ++ [line]) start
  = {| in_block := false;
       result := result (fold_left clike_body before start) ++ [line];
       removed := removed (fold_left clike_body before start) |} /\
  remove_full_line_comments (before ++ line :: rest) ext
  = (fst (remove_full_line_comments before ext) ++
     line :: fst (remove_full_line_comments rest ext),
     snd (remove_full_line_comments before ext)
     + snd (remove_full_line_comments rest ext)).
Proof.
  intros Hext Hb Hc Hs Ho.
  assert (Hbody : clike_body (fold_left clike_body before start) line
                  = {| in_block := false;
                       result := result (fold_left clike_body before start)
                                 ++ [line];
                       removed := removed (fold_left clike_body before start) |}).
  { rewrite LinesFacts.clike_body_rule, Hb. unfold Spec.clike_rule.
    rewrite Hs, Ho. reflexivity. }
  split.
  - rewrite fold_left_app. exact Hbody.
  - rewrite !LinesFacts.remove_full_line_comments_branch, Hext.
    rewrite fold_left_app. cbn [fold_left]. rewrite Hbody.
    rewrite (LinesFacts.loop_outcome _ _ LinesFacts.clike_body_rule).
    rewrite (LinesFacts.loop_from_start _ _ LinesFacts.clike_body_rule rest).
    cbn [in_block result removed outcome fst snd]. unfold Spec.strip_lines.
    rewrite <- app_assoc. reflexivity.
Qed.

Lemma stray_closer_is_retained_witness :
  classify (py ".kt") = CLikeBlock /\
  in_block (fold_left clike_body [ln "/* x */"] start) = false /\
  contains (py "*/") (ln "a */ b") = true /\
  Spec.begins (py "//") (ln "a */ b") = false /\
  Spec.begins (py "/*") (ln "a */ b") = false /\
  (fold_left clike_body ([ln "/* x */"] ++ [ln "a */ b"]) start
   = {| in_block := false;
        result := result (fold_left clike_body [ln "/* x */"] start)
                  ++ [ln "a */ b"];
        removed := removed (fold_left clike_body [ln "/* x */"] start) |} /\
   remove_full_line_comments ([ln "/* x */"] ++ ln "a */ b" :: [ln "c();"])
     (py ".kt")
   = (fst (remove_full_line_comments [ln "/* x */"] (py ".kt")) ++
      ln "a */ b" :: fst (remove_full_line_comments [ln "c();"] (py ".kt")),
      snd (remove_full_line_comments [ln "/* x */"] (py ".kt"))
      + snd (remove_full_line_comments [ln "c();"] (py ".kt")))).
Proof.
  split; [reflexivity|]. split; [reflexivity|]. split; [reflexivity|].
  split; [reflexivity|]. split; [reflexivity|].
  exact (stray_closer_is_retained (py ".kt") [ln "/* x */"] (ln "a */ b")
           [ln "c();"] eq_refl eq_refl eq_refl eq_refl eq_refl).
Defined.

(* ------------------------------------------------------------------ *)
(** * Reading back what was written *)

Module TextFacts.
Import Py TextIO.

Lemma universal_newlines_no_cr (s : pystr) : ~ In CR (universal_newlines s).
Proof.
  assert (H : forall n s, List.length s <= n -> ~ In CR (universal_newlines s)).
  { induction n as [|n IH]; intros [|c t] Hn; simpl in *; try tauto; try lia.
    destruct (N.eqb_spec c CR) as [->|Hc].
    - intros [E | Hin]; [discriminate|].
      destruct t as [|d t']; [exact Hin|].
      destruct (N.eqb d LF);
        (eapply IH; [|exact Hin]; simpl in *; lia).
    - intros [E | Hin]; [congruence|].
      eapply IH; [|exact Hin]. lia. }
  exact (H (List.length s) s (le_n _)).
Qed.

Lemma universal_newlines_fixed (s : pystr) :
  ~ In CR s -> universal_newlines s = s.
Proof.
  induction s as [|c s IH]; intros H; [reflexivity|].
  simpl. destruct (N.eqb_spec c CR) as [->|Hc].
  - exfalso. apply H. left; reflexivity.
  - rewrite IH; [reflexivity|]. intros Hin. apply H. right; exact Hin.
Qed.

(** The equations of [readlines]. *)
Lemma readlines_lf (t : pystr) : readlines (LF :: t) = [LF] :: readlines t.
Proof. reflexivity. Qed.

Lemma readlines_other (c : char) (t : pystr) :
  c <> LF ->
  readlines (c :: t) =
  match readlines t with
  | [] => [[c]]
  | l :: ls => (c :: l) :: ls
  end.
Proof.
  intros Hc. simpl. destruct (N.eqb_spec c LF); [contradiction | reflexivity].
Qed.

(** Nothing is lost between the text and its lines. *)
Lemma concat_readlines (s : pystr) : List.concat (readlines s) = s.
Proof.
  induction s as [|c s IH]; [reflexivity|].
  destruct (N.eq_dec c LF) as [->|Hc].
  - rewrite readlines_lf. simpl. rewrite IH. reflexivity.
  - rewrite readlines_other by assumption.
    destruct (readlines s) as [|l ls]; simpl in *; rewrite <- IH; reflexivity.
Qed.

Lemma terminated_cons (c : char) (l : pystr) :
  c <> LF -> c <> CR -> terminated l -> terminated (c :: l).
Proof.
  intros Hc Hr (body & -> & H1 & H2). exists (c :: body). repeat split.
  - intros [E | Hin]; [congruence | tauto].
  - intros [E | Hin]; [congruence | tauto].
Qed.

Lemma unterminated_cons (c : char) (l : pystr) :
  c <> LF -> c <> CR -> unterminated l -> unterminated (c :: l).
Proof.
  intros Hc Hr (_ & H1 & H2). repeat split.
  - discriminate.
  - intros [E | Hin]; [congruence | tauto].
  - intros [E | Hin]; [congruence | tauto].
Qed.

Lemma lines_ok_cons2 (l l' : pystr) (ls : list pystr) :
  lines_ok (l :: l' :: ls) <-> terminated l /\ lines_ok (l' :: ls).
Proof. reflexivity. Qed.

Lemma lines_ok_tail (l : pystr) (ls : list pystr) :
  lines_ok (l :: ls) -> lines_ok ls.
Proof.
  destruct ls as [|l' ls]; [intros _; exact I|].
  rewrite lines_ok_cons2. tauto.
Qed.

Lemma lines_ok_head (l : pystr) (ls : list pystr) :
  lines_ok (l :: ls) -> terminated l \/ unterminated l.
Proof.
  destruct ls as [|l' ls]; [tauto|].
  rewrite lines_ok_cons2. tauto.
Qed.

Lemma lines_ok_push (l : pystr) (ls : list pystr) :
  terminated l -> lines_ok ls -> lines_ok (l :: ls).
Proof.
  intros Hl Hls. destruct ls as [|l' ls]; [left; exact Hl|].
  apply lines_ok_cons2. tauto.
Qed.

(** The lines of a translated text are the lines of one text. *)
Lemma readlines_ok (s : pystr) : ~ In CR s -> lines_ok (readlines s).
Proof.
  induction s as [|c s IH]; intros H; [exact I|].
  assert (Hc : c <> CR) by (intros ->; apply H; left; reflexivity).
  assert (Hs : lines_ok (readlines s))
    by (apply IH; intros Hin; apply H; right; exact Hin).
  destruct (N.eq_dec c LF) as [->|Hl].
  - rewrite readlines_lf. apply lines_ok_push; [|exact Hs].
    exists []. repeat split; simpl; tauto.
  - rewrite readlines_other by assumption.
    destruct (readlines s) as [|l ls].
    + right. repeat split; simpl; try discriminate.
      * intros [E | []]; congruence.
      * intros [E | []]; congruence.
    + destruct ls as [|l' ls].
      * destruct Hs as [Hs | Hs];
          [left; apply terminated_cons | right; apply unterminated_cons];
          assumption.
      * destruct (proj1 (lines_ok_cons2 _ _ _) Hs) as [Hl1 Hl2].
        apply lines_ok_cons2.
        split; [apply terminated_cons; assumption | exact Hl2].
Qed.

Lemma readlines_terminated (l t : pystr) :
  terminated l -> readlines (l ++ t) = l :: readlines t.
Proof.
  intros (body & -> & H & _). induction body as [|c body IH].
  - reflexivity.
  - assert (Hc : c <> LF) by (intros ->; apply H; left; reflexivity).
    simpl app. rewrite readlines_other by assumption.
    simpl app in IH. rewrite IH; [reflexivity|].
    intros Hin. apply H. right; exact Hin.
Qed.

Lemma readlines_unterminated (l : pystr) :
  unterminated l -> readlines l = [l].
Proof.
  intros (Hne & H & _). induction l as [|c l IH]; [contradiction|].
  assert (Hc : c <> LF) by (intros ->; apply H; left; reflexivity).
  rewrite readlines_other by assumption.
  destruct l as [|d l]; [reflexivity|].
  rewrite IH; [reflexivity | discriminate |].
  intros Hin. apply H. right; exact Hin.
Qed.

(** The lines of one text are read back as they were written. *)
Lemma readlines_concat (ls : list pystr) :
  lines_ok ls -> readlines (List.concat ls) = ls.
Proof.
  induction ls as [|l ls IH]; intros H; [reflexivity|].
  destruct ls as [|l' ls].
  - simpl. rewrite app_nil_r. destruct H as [H | H].
    + rewrite <- (app_nil_r l) at 1. rewrite readlines_terminated by assumption.
      reflexivity.
    + apply readlines_unterminated; assumption.
  - destruct (proj1 (lines_ok_cons2 _ _ _) H) as [Hl Hls].
    change (List.concat (l :: l' :: ls)) with (l ++ List.concat (l' :: ls)).
    rewrite readlines_terminated by assumption. rewrite IH by assumption.
    reflexivity.
Qed.

Lemma lines_ok_no_cr (ls : list pystr) :
  lines_ok ls -> ~ In CR (List.concat ls).
Proof.
  induction ls as [|l ls IH]; intros H; [simpl; tauto|].
  simpl. rewrite in_app_iff. intros [Hin | Hin].
  - destruct (lines_ok_head _ _ H) as [(body & -> & _ & Hr) | (_ & _ & Hr)].
    + apply in_app_iff in Hin as [Hin | [E | []]]; [tauto | discriminate].
    + tauto.
  - exact (IH (lines_ok_tail _ _ H) Hin).
Qed.

(** Lines left out of the lines of one text leave the lines of one text:
    only the last line can lack its terminator, and it stays last. *)
Lemma lines_ok_subsequence (kept lines : list pystr) :
  Spec.subsequence kept lines -> lines_ok lines -> lines_ok kept.
Proof.
  induction 1 as [|x kept lines Hs IH|x kept lines Hs IH]; intros H.
  - exact I.
  - destruct kept as [|k kept].
    + exact (lines_ok_head _ _ H).
    + destruct lines as [|y lines]; [inversion Hs|].
      destruct (proj1 (lines_ok_cons2 _ _ _) H) as [Hx Hl].
      apply lines_ok_cons2. split; [exact Hx | exact (IH Hl)].
  - exact (IH (lines_ok_tail _ _ H)).
Qed.

Lemma lines_of_ok (raw : pystr) : lines_ok (lines_of raw).
Proof. apply readlines_ok, universal_newlines_no_cr. Qed.

(** What is written from the lines of a file is read back as written. *)
Lemma lines_of_writelines (raw : pystr) (kept : list pystr) :
  Spec.subsequence kept (lines_of raw) ->
  lines_of (writelines kept) = kept.
Proof.
  intros Hs.
  assert (Hk : lines_ok kept)
    by (apply (lines_ok_subsequence _ _ Hs), lines_of_ok).
  unfold lines_of, writelines.
  rewrite universal_newlines_fixed by (apply lines_ok_no_cr; exact Hk).
  apply readlines_concat; exact Hk.
Qed.

End TextFacts.

(* ------------------------------------------------------------------ *)
(** * Files and paths of remove_commented_lines.py *)

Module DriverFacts.
Import Py TextIO RemoveCommentedLines LinesDriver.

(** The retained lines, once more: they are lines of the input in order,
    the count says how many are missing, and a second pass keeps all. *)
Lemma retained_subsequence (lines : list pystr) (ext : pystr) :
  Spec.subsequence (fst (remove_full_line_comments lines ext)) lines.
Proof.
  rewrite LinesFacts.remove_full_line_comments_strip.
  destruct (classify ext); simpl;
    try apply SpecFacts.strip_lines_from_subsequence.
  apply SpecFacts.subsequence_refl.
Qed.



Lemma replace_char_same (a : char) (s : pystr) : replace_char a a s = s.
Proof.
  unfold replace_char. induction s as [|c s IH]; [reflexivity|].
  simpl. rewrite IH. destruct (N.eqb_spec c a) as [->|_]; reflexivity.
Qed.

(** [is_path_excluded], spelled out: the path is an entry of
    [EXCLUDE_DIRS] or lies below one. *)
Lemma is_path_excluded_iff (rel : pystr) :
  is_path_excluded rel = true <->
  exists ex, In ex EXCLUDE_DIRS /\
             (rel = ex \/ exists more, rel = ex ++ py "/" ++ more).
Proof.
  unfold is_path_excluded, SEP. rewrite replace_char_same, existsb_exists.
  split; intros (ex & Hex & H); exists ex; (split; [exact Hex|]).
  - apply orb_true_iff in H as [H | H].
    + left. apply PyFacts.str_eqb_eq; exact H.
    + right. apply PyFacts.starts_with_iff in H as (more & ->).
      exists more. rewrite <- app_assoc. reflexivity.
  - apply orb_true_iff. destruct H as [-> | (more & ->)].
    + left. apply PyFacts.str_eqb_refl.
    + right. rewrite app_assoc. apply PyFacts.starts_with_app.
Qed.

(** The ways [process_file] ends. *)
Lemma process_file_unreadable (path : pystr) (f : file) :
  text f = None -> process_file path f = (f, (0, 0)).
Proof. unfold process_file. intros ->. reflexivity. Qed.

Lemma process_file_readable (path : pystr) (f : file) (raw : pystr) :
  text f = Some raw ->
  process_file path f =
  let kept := fst (remove_full_line_comments (lines_of raw) (file_ext path)) in
  let n := snd (remove_full_line_comments (lines_of raw) (file_ext path)) in
  if (0 <? n) && writable f
  then ({| text := Some (writelines kept); writable := writable f |}, (1, n))
  else (f, (0, 0)).
Proof.
  unfold process_file. intros ->.
  destruct (remove_full_line_comments (lines_of raw) (file_ext path))
    as [kept n]. cbn [fst snd].
  destruct (0 <? n) eqn:Hn; cbn [andb].
  - destruct (writable f); reflexivity.
  - apply Nat.ltb_ge in Hn. replace n with 0 by lia. reflexivity.
Qed.


End DriverFacts.

(* ------------------------------------------------------------------ *)
(** * Further properties of remove_commented_lines.py *)

Import TextIO LinesDriver.



(** X3.  [INCLUDED_EXTENSIONS], by which [main] selects files, holds
    exactly the extensions of the three tables of
    [remove_full_line_comments]: on a file [main] hands over, the default
    passthrough is never taken, and no extension with rules is left out. *)
Theorem included_extensions_have_rules (ext : pystr) :
  mem ext INCLUDED_EXTENSIONS = true <-> classify ext <> NoDialect.
Proof.
  assert (E : mem ext INCLUDED_EXTENSIONS
              = mem ext CLIKE_EXTS || mem ext XML_EXTS || mem ext HASH_EXTS).
  { change INCLUDED_EXTENSIONS with (CLIKE_EXTS ++ XML_EXTS ++ HASH_EXTS).
    unfold mem. rewrite !existsb_app. apply orb_assoc. }
  rewrite E. unfold classify.
  destruct (mem ext CLIKE_EXTS), (mem ext XML_EXTS), (mem ext HASH_EXTS);
    simpl; split; (discriminate || reflexivity || congruence).
Qed.

(** X4.  Exclusion goes down the tree: when a path is excluded, every
    path below it is excluded. *)
Theorem excluded_below_excluded (rel more : pystr) :
  is_path_excluded rel = true ->
  is_path_excluded (rel ++ py "/" ++ more) = true.
Proof.
  rewrite !DriverFacts.is_path_excluded_iff.
  intros (ex & Hex & H). exists ex. split; [exact Hex|]. right.
  destruct H as [-> | (m & ->)].
  - exists more. reflexivity.
  - exists (m ++ py "/" ++ more). rewrite <- !app_assoc. reflexivity.
Qed.

Lemma excluded_below_excluded_witness :
  is_path_excluded (py "ios/Pods") = true /\
  is_path_excluded (py "ios/Pods" ++ py "/" ++ py "Firebase/a.m") = true.
Proof.
  split; [reflexivity|].
  exact (excluded_below_excluded (py "ios/Pods") (py "Firebase/a.m") eq_refl).
Defined.

(** X5.  Exclusion is by whole path components: a path that continues an
    entry of [EXCLUDE_DIRS] with anything but a separator, such as
    [.github] or [build_old/x], is not excluded. *)
Theorem lookalike_not_excluded (ex : pystr) (c : char) (more : pystr) :
  In ex EXCLUDE_DIRS -> c <> SEP ->
  is_path_excluded (ex ++ c :: more) = false.
Proof.
  intros Hex Hc. apply N.eqb_neq in Hc. unfold SEP in Hc.
  unfold is_path_excluded, SEP. rewrite DriverFacts.replace_char_same.
  unfold EXCLUDE_DIRS in Hex. simpl in Hex.
  repeat (destruct Hex as [<- | Hex]; [simpl; rewrite ?Hc; reflexivity|]).
  contradiction.
Qed.

Lemma lookalike_not_excluded_witness :
  In (py ".git") EXCLUDE_DIRS /\ 104%N <> SEP /\
  is_path_excluded (py ".git" ++ 104%N :: py "ub/workflows") = false.
Proof.
  assert (H : In (py ".git") EXCLUDE_DIRS) by (right; left; reflexivity).
  assert (Hc : 104%N <> SEP) by discriminate.
  split; [exact H | split; [exact Hc|]].
  exact (lookalike_not_excluded (py ".git") 104%N (py "ub/workflows") H Hc).
Defined.

(* ------------------------------------------------------------------ *)
(** * The walk of remove_commented_lines.py *)

Module WalkFacts.
Import Py TextIO RemoveCommentedLines LinesDriver.








(** One file. *)




(** The files of a directory. *)




(** The subdirectories of a directory. *)







End WalkFacts.





(* ------------------------------------------------------------------ *)
(** * Directories and files of remove_comments.py *)

Module CommentsFacts.
Import Py Re RemoveComments CommentsDriver.

(** The outer test of [should_skip_dir] adds nothing: each name the inner
    tests ask for is one of [skip_names]. *)
Lemma should_skip_dir_iff (parts : list pystr) :
  should_skip_dir parts = true <->
  (In (py "Flutter") parts /\ In (py "ephemeral") parts) \/
  In (py "build") parts \/ In (py ".dart_tool") parts \/
  In (py "Pods") parts \/ In (py "node_modules") parts.
Proof.
  rewrite <- !PyFacts.mem_In. unfold should_skip_dir, skip_names.
  cbn [existsb].
  destruct (mem (py "build") parts), (mem (py ".dart_tool") parts),
    (mem (py "Pods") parts), (mem (py "node_modules") parts),
    (mem (py "ephemeral") parts), (mem (py "Flutter") parts),
    (mem (py "ios") parts), (mem (py "macos") parts),
    (mem (py ".git") parts);
    cbn [orb andb]; intuition congruence.
Qed.

Lemma firstn_chunk {A : Type} (n : nat) (head tail : list A) :
  n <= List.length head -> firstn n (head ++ tail) = firstn n head.
Proof.
  intros H. rewrite firstn_app.
  replace (n - List.length head) with 0 by lia.
  simpl. apply app_nil_r.
Qed.

End CommentsFacts.

(** X9.  [should_skip_dir] skips a path exactly when its components
    include [build], [.dart_tool], [Pods] or [node_modules], or both
    [Flutter] and [ephemeral].  The names [.git], [ios] and [macos] of
    [skip_names] never decide: a path is not skipped on their account. *)
Theorem should_skip_dir_decided_by (parts : list pystr) :
  CommentsDriver.should_skip_dir parts = true <->
  (In (py "Flutter") parts /\ In (py "ephemeral") parts) \/
  In (py "build") parts \/ In (py ".dart_tool") parts \/
  In (py "Pods") parts \/ In (py "node_modules") parts.
Proof. exact (CommentsFacts.should_skip_dir_iff parts). Qed.

(** X10.  Skipping goes down the tree: when a path is skipped, so is
    every path that has all of its components, such as any path
    below it. *)
Theorem skipped_below_skipped (parts parts' : list pystr) :
  CommentsDriver.should_skip_dir parts = true ->
  incl parts parts' ->
  CommentsDriver.should_skip_dir parts' = true.
Proof.
  rewrite !CommentsFacts.should_skip_dir_iff. intros H Hin.
  unfold incl in Hin. intuition auto.
Qed.

Lemma skipped_below_skipped_witness :
  CommentsDriver.should_skip_dir [py "app"; py "ios"; py "Pods"] = true /\
  incl [py "app"; py "ios"; py "Pods"]
       [py "app"; py "ios"; py "Pods"; py "Firebase"] /\
  CommentsDriver.should_skip_dir [py "app"; py "ios"; py "Pods"; py "Firebase"]
  = true.
Proof.
  assert (H : incl [py "app"; py "ios"; py "Pods"]
                   [py "app"; py "ios"; py "Pods"; py "Firebase"])
    by (intros x Hx; simpl in *; tauto).
  split; [reflexivity | split; [exact H|]].
  exact (skipped_below_skipped [py "app"; py "ios"; py "Pods"]
           [py "app"; py "ios"; py "Pods"; py "Firebase"] eq_refl H).
Defined.

(** X11.  [is_text_file] looks at the first 4096 bytes only: what follows
    them, a NUL byte included, does not change its answer. *)
Theorem is_text_file_first_chunk (head tail : list Byte.byte) :
  4096 <= List.length head ->
  CommentsDriver.is_text_file (Some (head ++ tail))
  = CommentsDriver.is_text_file (Some head).
Proof.
  intros H. unfold CommentsDriver.is_text_file.
  rewrite CommentsFacts.firstn_chunk by exact H. reflexivity.
Qed.

Lemma is_text_file_first_chunk_witness :
  4096 <= List.length (repeat Byte.x61 4096) /\
  CommentsDriver.is_text_file (Some (repeat Byte.x61 4096 ++ [Byte.x00]))
  = CommentsDriver.is_text_file (Some (repeat Byte.x61 4096)).
Proof.
  assert (H : 4096 <= List.length (repeat Byte.x61 4096))
    by (rewrite repeat_length; apply le_n).
  split; [exact H|].
  exact (is_text_file_first_chunk (repeat Byte.x61 4096) [Byte.x00] H).
Defined.

(* ------------------------------------------------------------------ *)
(** * The filters of remove_comments.py *)

Module FilterFacts.
Import Py Re RemoveComments CommentsDriver.

Lemma lines_eqb_eq (a b : list pystr) : lines_eqb a b = true <-> a = b.
Proof.
  revert b; induction a as [|x a IH]; intros [|y b]; simpl;
    try (split; (reflexivity || discriminate)).
  rewrite andb_true_iff, PyFacts.str_eqb_eq, IH.
  split; [intros [-> ->]; reflexivity | intros [= -> ->]; auto].
Qed.

Lemma filter_all {A : Type} (p : A -> bool) (l : list A) :
  existsb p l = false -> filter (fun x => negb (p x)) l = l.
Proof.
  induction l as [|x l IH]; simpl; [reflexivity|].
  destruct (p x); simpl; [discriminate|]. intros H. rewrite IH by exact H.
  reflexivity.
Qed.

Lemma filter_shorter {A : Type} (p : A -> bool) (l : list A) :
  existsb p l = true ->
  List.length (filter (fun x => negb (p x)) l) < List.length l.
Proof.
  induction l as [|x l IH]; simpl; [discriminate|].
  pose proof (filter_length_le (fun x => negb (p x)) l) as Hle.
  destruct (p x); simpl; intros H; [|specialize (IH H)]; lia.
Qed.

Lemma filter_again {A : Type} (p : A -> bool) (l : list A) :
  filter p (filter p l) = filter p l.
Proof.
  induction l as [|x l IH]; simpl; [reflexivity|].
  destruct (p x) eqn:E; simpl; rewrite ?E, IH; reflexivity.
Qed.

Lemma filter_subsequence {A : Type} (p : A -> bool) (l : list A) :
  Spec.subsequence (filter p l) l.
Proof.
  induction l as [|x l IH]; simpl; [constructor|].
  destruct (p x); constructor; exact IH.
Qed.

(** The loop of the XML branch is a filter, and [removed_any] says
    whether a line matched. *)
Lemma xml_filter_filter (lines : list pystr) :
  xml_filter lines =
  (filter (fun ln => negb (re_match RE_XML_SINGLE_LINE_COMMENT ln)) lines,
   existsb (re_match RE_XML_SINGLE_LINE_COMMENT) lines).
Proof.
  unfold xml_filter.
  assert (H : forall acc b,
             fold_left xml_body lines (acc, b) =
             (acc ++ filter (fun ln => negb (re_match RE_XML_SINGLE_LINE_COMMENT ln))
                            lines,
              b || existsb (re_match RE_XML_SINGLE_LINE_COMMENT) lines)).
  { induction lines as [|ln lines IH]; intros acc b.
    - simpl. rewrite app_nil_r, orb_false_r. reflexivity.
    - cbn [fold_left filter existsb].
      replace (xml_body (acc, b) ln)
        with (if re_match RE_XML_SINGLE_LINE_COMMENT ln
              then (acc, true) else (acc ++ [ln], b)) by reflexivity.
      destruct (re_match RE_XML_SINGLE_LINE_COMMENT ln); rewrite IH;
        cbn [negb orb].
      + rewrite orb_true_r. reflexivity.
      + rewrite <- app_assoc. reflexivity. }
  rewrite H. reflexivity.
Qed.

(** No extension is in both tables. *)
Lemma tables_disjoint (ext : pystr) :
  mem ext LINE_COMMENT_EXTS = true -> mem ext XML_LIKE_EXTS = false.
Proof.
  intros H. apply PyFacts.mem_In in H. unfold LINE_COMMENT_EXTS in H.
  simpl in H.
  repeat (destruct H as [<- | H]; [reflexivity|]). contradiction.
Qed.

(** [process_file], spelled out: the lines it leaves are those of the
    filter of the table the extension is in, and [changed] says whether
    they differ from the lines it found. *)
Lemma process_file_filter (name : pystr) (lines : list pystr) :
  process_file name lines =
  let kept :=
    if mem (file_ext name) LINE_COMMENT_EXTS then line_filter lines
    else if mem (file_ext name) XML_LIKE_EXTS
         then filter (fun ln => negb (re_match RE_XML_SINGLE_LINE_COMMENT ln))
                     lines
    else lines in
  (kept, negb (lines_eqb kept lines)).
Proof.
  assert (Hrefl : lines_eqb lines lines = true) by (apply lines_eqb_eq; reflexivity).
  unfold process_file. cbv zeta.
  destruct (mem (file_ext name) LINE_COMMENT_EXTS) eqn:HL.
  - rewrite (tables_disjoint _ HL).
    destruct (lines_eqb (line_filter lines) lines) eqn:E; cbn [negb].
    + apply lines_eqb_eq in E. rewrite E. reflexivity.
    + reflexivity.
  - destruct (mem (file_ext name) XML_LIKE_EXTS) eqn:HX.
    + rewrite xml_filter_filter.
      destruct (existsb (re_match RE_XML_SINGLE_LINE_COMMENT) lines) eqn:E.
      * assert (Hlt : List.length
                        (filter (fun ln => negb (re_match RE_XML_SINGLE_LINE_COMMENT ln))
                                lines)
                      < List.length lines).
        { apply filter_shorter. exact E. }
        set (kept := filter _ lines) in *.
        destruct (lines_eqb kept lines) eqn:E'; [|reflexivity].
        apply lines_eqb_eq in E'. rewrite E' in Hlt. lia.
      * rewrite filter_all by exact E. rewrite Hrefl. reflexivity.
    + rewrite Hrefl. reflexivity.
Qed.

End FilterFacts.

(* ------------------------------------------------------------------ *)
(** * The suffix of a file name *)

Module SuffixFacts.
Import Py RemoveComments.

(** [rfind] answers the start value when the character is absent, and
    else the index of its last occurrence. *)
Lemma rfind_from_last (c : char) (s : pystr) (i acc : Z) :
  (rfind_from c s i acc = acc /\ ~ In c s) \/
  exists k rest,
    rfind_from c s i acc = (i + Z.of_nat k)%Z /\
    skipn k s = c :: rest /\ ~ In c rest.
Proof.
  revert i acc; induction s as [|x s IH]; intros i acc.
  - left. split; [reflexivity | simpl; tauto].
  - cbn [rfind_from].
    destruct (IH (i + 1)%Z (if N.eqb x c then i else acc))
      as [[E Hn] | (k & rest & E & Hs & Hn)].
    + destruct (N.eqb_spec x c) as [->|Hx].
      * right. exists 0, s. rewrite E. repeat split; [lia | exact Hn].
      * left. split; [exact E|]. intros [H | H]; [congruence | tauto].
    + right. exists (S k), rest. rewrite E. repeat split; [lia | exact Hs | exact Hn].
Qed.

(** A suffix is empty, or a dot followed by no other dot. *)
Lemma suffix_shape (name : pystr) :
  suffix name = [] \/
  exists rest, suffix name = 46%N :: rest /\ ~ In 46%N rest.
Proof.
  unfold suffix, rfind.
  destruct (rfind_from_last 46%N name 0 (-1)) as [[E _] | (k & rest & E & Hs & Hn)].
  - rewrite E. left. reflexivity.
  - rewrite E.
    destruct ((0 <? 0 + Z.of_nat k) && (0 + Z.of_nat k <? Z.of_nat (List.length name) - 1))%Z;
      [|left; reflexivity].
    right. exists rest. replace (Z.to_nat (0 + Z.of_nat k)) with k by lia.
    split; assumption.
Qed.

Lemma lower_char_dot (c : char) : lower_char c = 46%N -> c = 46%N.
Proof.
  unfold lower_char.
  destruct ((65 <=? c) && (c <=? 90))%N eqn:E; [|tauto].
  apply andb_true_iff in E as [E1 E2].
  apply N.leb_le in E1. apply N.leb_le in E2. lia.
Qed.

Lemma lower_no_dot (s : pystr) : ~ In 46%N s -> ~ In 46%N (lower s).
Proof.
  intros H Hin. unfold lower in Hin. apply in_map_iff in Hin as (c & E & Hc).
  apply lower_char_dot in E. subst c. exact (H Hc).
Qed.

(** The extension [process_file] works with has at most one dot. *)
Lemma file_ext_shape (name : pystr) :
  file_ext name = [] \/
  exists rest, file_ext name = 46%N :: rest /\ ~ In 46%N rest.
Proof.
  unfold file_ext.
  destruct (str_eqb (lower (suffix name)) [] && ends_with (py ".gradle.kts") name)
    eqn:E.
  - exfalso. apply andb_true_iff in E as [E1 E2].
    apply PyFacts.str_eqb_eq in E1.
    apply PyFacts.ends_with_iff in E2 as (stem & ->).
    rewrite ExtFacts.suffix_gradle_kts in E1. discriminate E1.
  - destruct (suffix_shape name) as [-> | (rest & -> & Hn)].
    + left. reflexivity.
    + right. exists (lower rest). split; [reflexivity|].
      apply lower_no_dot; exact Hn.
Qed.

End SuffixFacts.

(* ------------------------------------------------------------------ *)
(** * The patterns of remove_comments.py *)

Module LineCommentFacts.
Import Py Re RemoveComments CommentsDriver.

(** [\s*] before a pattern that refuses whitespace skips exactly the
    leading whitespace. *)
Lemma matches_space_star_any (p : pattern) (s : pystr) :
  (forall x t, is_space x = true -> matches p (x :: t) = false) ->
  matches p [] = false ->
  matches (Star Space :: p) s = matches p (lstrip s).
Proof.
  intros Hp Hnil. induction s as [|x s IH]; rewrite ReFacts.matches_star.
  - simpl lstrip. rewrite Hnil. reflexivity.
  - change (lstrip (x :: s)) with (if is_space x then lstrip s else x :: s).
    simpl in_class. destruct (is_space x) eqn:Hx.
    + rewrite IH, (Hp x s Hx). reflexivity.
    + apply orb_false_r.
Qed.

Lemma one_line_tail (x : char) (s : pystr) :
  one_line (x :: s) = true -> one_line s = true.
Proof.
  unfold one_line. destruct s as [|y s]; [reflexivity|].
  change (removelast (x :: y :: s)) with (x :: removelast (y :: s)).
  simpl forallb. rewrite andb_true_iff. tauto.
Qed.

Lemma one_line_skipn (k : nat) (s : pystr) :
  one_line s = true -> one_line (skipn k s) = true.
Proof.
  revert s; induction k as [|k IH]; intros s H; [exact H|].
  destruct s as [|x s]; [exact H|].
  simpl. apply IH. exact (one_line_tail x s H).
Qed.

Lemma one_line_lstrip (s : pystr) :
  one_line s = true -> one_line (lstrip s) = true.
Proof.
  induction s as [|x s IH]; intros H; [exact H|].
  simpl. destruct (is_space x); [|exact H].
  apply IH. exact (one_line_tail x s H).
Qed.

(** [.*$] reads to the end of a text without an inner line feed. *)
Lemma matches_rest_of_line (r : pystr) :
  one_line r = true -> matches [Star Dot; Eos] r = true.
Proof.
  induction r as [|c r IH]; intros H; [reflexivity|].
  rewrite ReFacts.matches_star. destruct r as [|d r].
  - simpl. destruct (N.eqb c LF); reflexivity.
  - pose proof (one_line_tail c (d :: r) H) as Ht.
    unfold one_line in H.
    change (removelast (c :: d :: r)) with (c :: removelast (d :: r)) in H.
    simpl forallb in H. apply andb_true_iff in H as [Hc _].
    simpl in_class. rewrite Hc, (IH Ht). apply orb_true_r.
Qed.

(** On one line, [RE_LINE_COMMENT] tests how the line begins. *)
Lemma re_match_line_comment (line : pystr) :
  one_line line = true ->
  re_match RE_LINE_COMMENT line = begins_with_marker line.
Proof.
  intros H. unfold re_match, RE_LINE_COMMENT.
  rewrite matches_space_star_any.
  - unfold begins_with_marker, line_markers.
    cbn [matches existsb].
    rewrite !(matches_rest_of_line _
                (one_line_skipn _ _ (one_line_lstrip _ H))).
    rewrite !andb_true_r. reflexivity.
  - intros x t Hx. cbn [matches existsb].
    assert (E : forall c, is_space c = false -> N.eqb x c = false).
    { intros c Hc. apply N.eqb_neq. intros ->. congruence. }
    cbn [py starts_with].
    change (N_of_ascii "/") with 47%N. change (N_of_ascii "#") with 35%N.
    change (N_of_ascii "!") with 33%N. change (N_of_ascii ";") with 59%N.
    rewrite (E 47%N eq_refl), (E 35%N eq_refl), (E 33%N eq_refl),
      (E 59%N eq_refl).
    reflexivity.
  - reflexivity.
Qed.



End LineCommentFacts.

(* ------------------------------------------------------------------ *)
(** * Further properties of remove_comments.py *)

(** X12.  [process_file] never works with the extension [.gradle.kts]:
    the suffix of a name has one dot, and the two-segment case needs an
    empty suffix on a name that has one.  The entry [.gradle.kts] of
    [LINE_COMMENT_EXTS] therefore matches no file. *)
Theorem file_ext_never_gradle_kts (name : pystr) :
  RemoveComments.file_ext name <> py ".gradle.kts".
Proof.
  destruct (SuffixFacts.file_ext_shape name) as [-> | (rest & -> & Hn)].
  - discriminate.
  - intros E. injection E as E. subst rest. apply Hn.
    do 6 right. left. reflexivity.
Qed.

(** X13.  A file whose name ends in [.gradle.kts] passes the test by
    which [main] counts files and calls [process_file], and
    [process_file] leaves it as it is and returns [False], whatever its
    lines. *)
Theorem gradle_kts_counted_not_changed (stem : pystr) (lines : list pystr) :
  CommentsDriver.selected (stem ++ py ".gradle.kts") = true /\
  RemoveComments.process_file (stem ++ py ".gradle.kts") lines = (lines, false).
Proof.
  split.
  - unfold CommentsDriver.selected. apply orb_true_iff. right.
    apply PyFacts.ends_with_iff. exists stem. reflexivity.
  - exact (proj2 (ExtFacts.process_file_gradle_kts stem lines)).
Qed.

(** X14.  [process_file] of remove_comments.py returns [True] exactly
    when the lines it leaves differ from the lines it found. *)
Theorem changed_iff_lines_differ (name : pystr) (lines : list pystr) :
  snd (RemoveComments.process_file name lines) = true <->
  fst (RemoveComments.process_file name lines) <> lines.
Proof.
  rewrite FilterFacts.process_file_filter. cbv zeta. cbn [fst snd].
  rewrite negb_true_iff. split.
  - intros E H. apply FilterFacts.lines_eqb_eq in H. congruence.
  - intros H. destruct (lines_eqb _ lines) eqn:E; [|reflexivity].
    apply FilterFacts.lines_eqb_eq in E. contradiction.
Qed.

(** X15.  The lines [process_file] of remove_comments.py leaves are
    lines of the file, whole and in their order; and on them a second
    call leaves them again and returns [False]. *)
Theorem comments_filter_stable (name : pystr) (lines : list pystr) :
  Spec.subsequence (fst (RemoveComments.process_file name lines)) lines /\
  RemoveComments.process_file name
    (fst (RemoveComments.process_file name lines))
  = (fst (RemoveComments.process_file name lines), false).
Proof.
  rewrite !FilterFacts.process_file_filter. cbv zeta. cbn [fst].
  assert (R : forall l : list pystr, negb (lines_eqb l l) = false).
  { intros l. apply negb_false_iff, FilterFacts.lines_eqb_eq. reflexivity. }
  unfold RemoveComments.line_filter.
  destruct (mem (RemoveComments.file_ext name) RemoveComments.LINE_COMMENT_EXTS).
  - split; [apply FilterFacts.filter_subsequence|].
    rewrite FilterFacts.filter_again, R. reflexivity.
  - destruct (mem (RemoveComments.file_ext name) RemoveComments.XML_LIKE_EXTS).
    + split; [apply FilterFacts.filter_subsequence|].
      rewrite FilterFacts.filter_again, R. reflexivity.
    + split; [apply SpecFacts.subsequence_refl|]. rewrite R. reflexivity.
Qed.

(** X16.  On lines without an inner line feed, as [splitlines] yields
    them, the line-comment filter drops exactly the lines that begin,
    after leading whitespace, with [//], [#], [!] or [;]. *)
Theorem line_filter_by_marker (lines : list pystr) :
  Forall (fun line => CommentsDriver.one_line line = true) lines ->
  RemoveComments.line_filter lines
  = filter (fun line => negb (CommentsDriver.begins_with_marker line)) lines.
Proof.
  unfold RemoveComments.line_filter.
  induction 1 as [|line rest H _ IH]; [reflexivity|].
  cbn [filter]. rewrite IH, (LineCommentFacts.re_match_line_comment line H).
  reflexivity.
Qed.

Lemma line_filter_by_marker_witness :
  Forall (fun line => CommentsDriver.one_line line = true)
         [ln "  ; a"; ln "b ; c"; ln "! d"; py "e"] /\
  RemoveComments.line_filter [ln "  ; a"; ln "b ; c"; ln "! d"; py "e"]
  = filter (fun line => negb (CommentsDriver.begins_with_marker line))
           [ln "  ; a"; ln "b ; c"; ln "! d"; py "e"].
Proof.
  assert (H : Forall (fun line => CommentsDriver.one_line line = true)
                     [ln "  ; a"; ln "b ; c"; ln "! d"; py "e"])
    by (repeat constructor).
  split; [exact H|].
  exact (line_filter_by_marker [ln "  ; a"; ln "b ; c"; ln "! d"; py "e"] H).
Defined.

(** X17.  The two tools on the shebang of a script: for a file of the
    line-comment table, remove_comments.py drops a first line that
    starts with [#!], where [remove_full_line_comments] of
    remove_commented_lines.py, on a HashLine extension, keeps it. *)
Theorem shebang_dropped_by_line_filter
        (name ext : pystr) (rest_of_line : pystr) (rest : list pystr) :
  mem (RemoveComments.file_ext name) RemoveComments.LINE_COMMENT_EXTS = true ->
  classify ext = HashLine ->
  CommentsDriver.one_line (py "#!" ++ rest_of_line) = true ->
  RemoveComments.process_file name ((py "#!" ++ rest_of_line) :: rest)
  = (fst (RemoveComments.process_file name rest), true) /\
  fst (remove_full_line_comments ((py "#!" ++ rest_of_line) :: rest) ext)
  = (py "#!" ++ rest_of_line) :: fst (remove_full_line_comments rest ext).
Proof.
  intros HL Hext H1. split.
  - rewrite !FilterFacts.process_file_filter. cbv zeta. rewrite HL.
    unfold RemoveComments.line_filter. cbn [filter fst].
    rewrite (LineCommentFacts.re_match_line_comment _ H1).
    replace (CommentsDriver.begins_with_marker (py "#!" ++ rest_of_line))
      with true by reflexivity.
    cbn [negb]. f_equal. apply negb_true_iff.
    destruct (lines_eqb _ _) eqn:E; [|reflexivity].
    apply FilterFacts.lines_eqb_eq in E.
    pose proof (filter_length_le
                  (fun ln => negb (Re.re_match RemoveComments.RE_LINE_COMMENT ln))
                  rest) as Hle.
    rewrite E in Hle. simpl in Hle. lia.
  - rewrite !LinesFacts.remove_full_line_comments_strip, Hext.
    simpl Link.strip. unfold Spec.strip_lines.
    rewrite !SpecFacts.strip_lines_from_hash. reflexivity.
Qed.

Lemma shebang_dropped_by_line_filter_witness :
  mem (RemoveComments.file_ext (py "run.sh")) RemoveComments.LINE_COMMENT_EXTS
  = true /\
  classify (py ".sh") = HashLine /\
  CommentsDriver.one_line (py "#!" ++ ln "/bin/sh") = true /\
  RemoveComments.process_file (py "run.sh")
    ((py "#!" ++ ln "/bin/sh") :: [ln "echo hi"])
  = (fst (RemoveComments.process_file (py "run.sh") [ln "echo hi"]), true) /\
  fst (remove_full_line_comments
         ((py "#!" ++ ln "/bin/sh") :: [ln "echo hi"]) (py ".sh"))
  = (py "#!" ++ ln "/bin/sh")
      :: fst (remove_full_line_comments [ln "echo hi"] (py ".sh")).
Proof.
  split; [reflexivity|]. split; [reflexivity|]. split; [reflexivity|].
  exact (shebang_dropped_by_line_filter (py "run.sh") (py ".sh")
           (ln "/bin/sh") [ln "echo hi"] eq_refl eq_refl eq_refl).
Defined.



(* ------------------------------------------------------------------ *)
(** * Blocks, and files without rules *)

Module BlockFacts.
Import Py TextIO RemoveCommentedLines LinesDriver.

(** Lines inside a block that do not close it are all removed. *)
Lemma strip_lines_from_block (r : Spec.rule) (body tl : list pystr) :
  Forall (fun l => r true l = (Spec.Remove, true)) body ->
  Spec.strip_lines_from r true (body ++ tl) =
  (fst (Spec.strip_lines_from r true tl),
   List.length body + snd (Spec.strip_lines_from r true tl)).
Proof.
  induction 1 as [|l body Hl _ IH].
  - simpl. destruct (Spec.strip_lines_from r true tl); reflexivity.
  - simpl app. rewrite (SpecFacts.strip_lines_from_remove r true true l _ Hl).
    rewrite IH. reflexivity.
Qed.

(** A loop that is outside a block after [before] handles what follows
    as from the start of a file. *)
Lemma loop_after (body : loop_state -> pystr -> loop_state) (r : Spec.rule)
      (before lines : list pystr) :
  (forall st line, body st line = Link.act (r (in_block st) line) line st) ->
  in_block (fold_left body before start) = false ->
  outcome (fold_left body (before ++ lines) start) =
  (fst (outcome (fold_left body before start)) ++ fst (Spec.strip_lines r lines),
   snd (outcome (fold_left body before start)) + snd (Spec.strip_lines r lines)).
Proof.
  intros Hb H. rewrite fold_left_app, (LinesFacts.loop_outcome body r Hb), H.
  reflexivity.
Qed.

Lemma begins_opener_not_slashes (line : pystr) :
  Spec.begins (py "/*") line = true -> Spec.begins (py "//") line = false.
Proof.
  unfold Spec.begins. destruct (lstrip line) as [|a [|b t]]; simpl.
  - discriminate.
  - rewrite !andb_false_r. discriminate.
  - destruct (N.eqb a 47); [|discriminate]. simpl.
    destruct (N.eqb_spec b 42) as [->|]; [reflexivity | discriminate].
Qed.

Lemma clike_opener (line : pystr) :
  Spec.begins (py "/*") line = true ->
  Spec.closes_after_opener line = false ->
  Spec.clike_rule false line = (Spec.Remove, true).
Proof.
  intros H1 H2. unfold Spec.clike_rule.
  rewrite (begins_opener_not_slashes line H1), H1, H2. reflexivity.
Qed.


End BlockFacts.



(** X20.  When [process_file] rewrites a file, the new file reads back as
    exactly the lines [remove_full_line_comments] retained, and it holds
    no carriage return: a file with [\r\n] or [\r] line ends comes out
    with [\n] line ends (where [os.linesep] is [\n]). *)
Theorem rewritten_file_reads_back (path : pystr) (f f' : file) (n : nat) :
  process_file path f = (f', (1, n)) ->
  exists raw raw',
    text f = Some raw /\ text f' = Some raw' /\
    lines_of raw'
    = fst (remove_full_line_comments (lines_of raw) (file_ext path)) /\
    ~ In CR raw'.
Proof.
  intros H. destruct (text f) as [raw|] eqn:Ht.
  - rewrite (DriverFacts.process_file_readable path f raw Ht) in H.
    cbv zeta in H.
    pose proof (DriverFacts.retained_subsequence (lines_of raw) (file_ext path))
      as Hs.
    destruct ((0 <? snd (remove_full_line_comments (lines_of raw) (file_ext path)))
              && writable f); [|discriminate H].
    injection H as <- _.
    exists raw, (writelines
                   (fst (remove_full_line_comments (lines_of raw) (file_ext path)))).
    repeat split.
    + apply (TextFacts.lines_of_writelines raw); exact Hs.
    + apply TextFacts.lines_ok_no_cr.
      apply (TextFacts.lines_ok_subsequence _ _ Hs), TextFacts.lines_of_ok.
  - rewrite (DriverFacts.process_file_unreadable path f Ht) in H.
    discriminate H.
Qed.

Lemma rewritten_file_reads_back_witness :
  process_file (py "lib/a.dart")
    {| text := Some (py "// x" ++ [CR; LF] ++ py "f();" ++ [CR; LF]);
       writable := true |}
  = ({| text := Some (ln "f();"); writable := true |}, (1, 1)) /\
  exists raw raw',
    Some (py "// x" ++ [CR; LF] ++ py "f();" ++ [CR; LF]) = Some raw /\
    Some (ln "f();") = Some raw' /\
    lines_of raw'
    = fst (remove_full_line_comments (lines_of raw) (file_ext (py "lib/a.dart")))
    /\ ~ In CR raw'.
Proof.
  split; [reflexivity|].
  exact (rewritten_file_reads_back (py "lib/a.dart")
           {| text := Some (py "// x" ++ [CR; LF] ++ py "f();" ++ [CR; LF]);
              writable := true |}
           {| text := Some (ln "f();"); writable := true |} 1 eq_refl).
Defined.

(** X21.  A block comment in a C-like file: after lines that leave the
    loop outside a block, a line that begins with [/*] and does not
    close on its line, the lines after it that hold no [*/], and the
    first line that holds [*/] are all removed, and the lines after that
    are handled as from the start of a file. *)
Theorem clike_block_removed
        (ext : pystr) (before : list pystr) (opener : pystr)
        (inside : list pystr) (closer : pystr) (rest : list pystr) :
  classify ext = CLikeBlock ->
  in_block (fold_left clike_body before start) = false ->
  Spec.begins (py "/*") opener = true ->
  Spec.closes_after_opener opener = false ->
  Forall (fun l => contains (py "*/") l = false) inside ->
  contains (py "*/") closer = true ->
  remove_full_line_comments (before ++ opener :: inside ++ closer :: rest) ext
  = (fst (remove_full_line_comments before ext)
     ++ fst (remove_full_line_comments rest ext),
     snd (remove_full_line_comments before ext)
     + (List.length inside + 2)
     + snd (remove_full_line_comments rest ext)).
Proof.
  intros Hext Hb Ho Hc Hin Hcl.
  rewrite !LinesFacts.remove_full_line_comments_branch, Hext.
  rewrite (BlockFacts.loop_after clike_body Spec.clike_rule before _
             LinesFacts.clike_body_rule Hb).
  rewrite (LinesFacts.loop_from_start _ _ LinesFacts.clike_body_rule rest).
  unfold Spec.strip_lines.
  rewrite (SpecFacts.strip_lines_from_remove Spec.clike_rule false true opener _
             (BlockFacts.clike_opener opener Ho Hc)).
  rewrite BlockFacts.strip_lines_from_block.
  - rewrite (SpecFacts.strip_lines_from_remove Spec.clike_rule true false closer).
    + cbn [fst snd]. f_equal. lia.
    + unfold Spec.clike_rule. rewrite Hcl. reflexivity.
  - eapply Forall_impl; [|exact Hin]. intros l Hl.
    unfold Spec.clike_rule. rewrite Hl. reflexivity.
Qed.

Lemma clike_block_removed_witness :
  classify (py ".swift") = CLikeBlock /\
  in_block (fold_left clike_body [ln "a();"] start) = false /\
  Spec.begins (py "/*") (ln "  /* b */ c();") = true /\
  Spec.closes_after_opener (ln "  /* b */ c();") = false /\
  Forall (fun l => contains (py "*/") l = false) [ln "d();"; ln "// e"] /\
  contains (py "*/") (ln "f(); /* g */ h();") = true /\
  remove_full_line_comments
    ([ln "a();"] ++ ln "  /* b */ c();"
       :: [ln "d();"; ln "// e"] ++ ln "f(); /* g */ h();" :: [ln "i();"])
    (py ".swift")
  = (fst (remove_full_line_comments [ln "a();"] (py ".swift"))
     ++ fst (remove_full_line_comments [ln "i();"] (py ".swift")),
     snd (remove_full_line_comments [ln "a();"] (py ".swift"))
     + (List.length [ln "d();"; ln "// e"] + 2)
     + snd (remove_full_line_comments [ln "i();"] (py ".swift"))).
Proof.
  assert (H : Forall (fun l => contains (py "*/") l = false)
                     [ln "d();"; ln "// e"]) by (repeat constructor).
  split; [reflexivity|]. split; [reflexivity|]. split; [reflexivity|].
  split; [reflexivity|]. split; [exact H|]. split; [reflexivity|].
  exact (clike_block_removed (py ".swift") [ln "a();"] (ln "  /* b */ c();")
           [ln "d();"; ln "// e"] (ln "f(); /* g */ h();") [ln "i();"]
           eq_refl eq_refl eq_refl eq_refl H eq_refl).
Defined.

(** X22.  A block that is never closed swallows the rest of a C-like
    file: after a line that begins with [/*] and does not close on its
    line, when no later line holds [*/], every later line is removed. *)
Theorem clike_open_block_removes_rest
        (ext : pystr) (before : list pystr) (opener : pystr)
        (after : list pystr) :
  classify ext = CLikeBlock ->
  in_block (fold_left clike_body before start) = false ->
  Spec.begins (py "/*") opener = true ->
  Spec.closes_after_opener opener = false ->
  Forall (fun l => contains (py "*/") l = false) after ->
  remove_full_line_comments (before ++ opener :: after) ext
  = (fst (remove_full_line_comments before ext),
     snd (remove_full_line_comments before ext) + (List.length after + 1)).
Proof.
  intros Hext Hb Ho Hc Hin.
  rewrite !LinesFacts.remove_full_line_comments_branch, Hext.
  rewrite (BlockFacts.loop_after clike_body Spec.clike_rule before _
             LinesFacts.clike_body_rule Hb).
  unfold Spec.strip_lines.
  rewrite (SpecFacts.strip_lines_from_remove Spec.clike_rule false true opener _
             (BlockFacts.clike_opener opener Ho Hc)).
  rewrite <- (app_nil_r after), BlockFacts.strip_lines_from_block.
  - cbn [fst snd Spec.strip_lines_from]. rewrite !app_nil_r. f_equal. lia.
  - eapply Forall_impl; [|exact Hin]. intros l Hl.
    unfold Spec.clike_rule. rewrite Hl. reflexivity.
Qed.

Lemma clike_open_block_removes_rest_witness :
  classify (py ".js") = CLikeBlock /\
  in_block (fold_left clike_body [ln "a();"] start) = false /\
  Spec.begins (py "/*") (ln "/*/") = true /\
  Spec.closes_after_opener (ln "/*/") = false /\
  Forall (fun l => contains (py "*/") l = false) [ln "b();"; ln "c();"] /\
  remove_full_line_comments ([ln "a();"] ++ ln "/*/" :: [ln "b();"; ln "c();"])
    (py ".js")
  = (fst (remove_full_line_comments [ln "a();"] (py ".js")),
     snd (remove_full_line_comments [ln "a();"] (py ".js"))
     + (List.length [ln "b();"; ln "c();"] + 1)).
Proof.
  assert (H : Forall (fun l => contains (py "*/") l = false)
                     [ln "b();"; ln "c();"]) by (repeat constructor).
  split; [reflexivity|]. split; [reflexivity|]. split; [reflexivity|].
  split; [reflexivity|]. split; [exact H|].
  exact (clike_open_block_removes_rest (py ".js") [ln "a();"] (ln "/*/")
           [ln "b();"; ln "c();"] eq_refl eq_refl eq_refl eq_refl H).
Defined.

(* ------------------------------------------------------------------ *)
(** * The extension of a path *)

Module PathFacts.
Import Py.

(** Two searches of one text find the same last occurrence, each counted
    from its own start, or none. *)
Lemma rfind_from_both (c : char) (s : pystr) (i acc j acc' : Z) :
  (rfind_from c s i acc = acc /\ rfind_from c s j acc' = acc') \/
  exists k, (0 <= k < Z.of_nat (List.length s))%Z /\
            rfind_from c s i acc = (i + k)%Z /\
            rfind_from c s j acc' = (j + k)%Z.
Proof.
  revert i acc j acc'; induction s as [|x s IH]; intros i acc j acc'.
  - left. split; reflexivity.
  - cbn [rfind_from List.length].
    destruct (IH (i + 1)%Z (if N.eqb x c then i else acc)
                 (j + 1)%Z (if N.eqb x c then j else acc'))
      as [[E1 E2] | (k & Hk & E1 & E2)].
    + rewrite E1, E2. destruct (N.eqb x c).
      * right. exists 0%Z. repeat split; lia.
      * left. split; reflexivity.
    + right. exists (k + 1)%Z. rewrite E1, E2. repeat split; lia.
Qed.

Lemma rfind_from_absent (c : char) (s : pystr) (i acc : Z) :
  ~ In c s -> rfind_from c s i acc = acc.
Proof.
  revert i acc; induction s as [|x s IH]; intros i acc H; [reflexivity|].
  cbn [rfind_from]. destruct (N.eqb_spec x c) as [->|_].
  - exfalso. apply H. left; reflexivity.
  - apply IH. intros Hin. apply H. right; exact Hin.
Qed.

(** [splitext] looks at the last component only. *)
Lemma splitext_join (dir name : pystr) :
  ~ In 47%N name ->
  snd (OsPath.splitext (dir ++ py "/" ++ name)) = snd (OsPath.splitext name).
Proof.
  intros Hn. unfold OsPath.splitext, rfind.
  set (L := Z.of_nat (List.length dir)).
  assert (Es : rfind_from 47%N (dir ++ py "/" ++ name) 0 (-1) = L).
  { rewrite ExtFacts.rfind_from_app. cbn [py app rfind_from].
    change (N_of_ascii "/") with 47%N. cbn [N.eqb Pos.eqb].
    apply rfind_from_absent; exact Hn. }
  assert (Es' : rfind_from 47%N name 0 (-1) = (-1)%Z)
    by (apply rfind_from_absent; exact Hn).
  rewrite Es, Es'.
  assert (Ed : rfind_from 46%N (dir ++ py "/" ++ name) 0 (-1)
               = rfind_from 46%N name (L + 1) (rfind 46%N dir)).
  { rewrite ExtFacts.rfind_from_app. reflexivity. }
  rewrite Ed.
  pose proof (ExtFacts.rfind_range 46%N dir) as Hr.
  destruct (rfind_from_both 46%N name (L + 1) (rfind 46%N dir) 0 (-1))
    as [[E1 E2] | (k & Hk & E1 & E2)]; rewrite E1, E2.
  - replace (L <? rfind 46%N dir)%Z with false
      by (symmetry; apply Z.ltb_ge; unfold L; lia).
    reflexivity.
  - replace (L <? L + 1 + k)%Z with true by (symmetry; apply Z.ltb_lt; lia).
    replace (-1 <? 0 + k)%Z with true by (symmetry; apply Z.ltb_lt; lia).
    cbn [andb].
    assert (Hslice : slice (dir ++ py "/" ++ name) (L + 1) (L + 1 + k)
                     = slice name (-1 + 1) (0 + k)).
    { unfold slice.
      replace (Z.to_nat (L + 1 + k) - Z.to_nat (L + 1)) with (Z.to_nat k)
        by lia.
      replace (Z.to_nat (0 + k) - Z.to_nat (-1 + 1)) with (Z.to_nat k) by lia.
      replace (Z.to_nat (L + 1)) with (List.length (dir ++ py "/") + 0)
        by (rewrite length_app; unfold L; simpl; lia).
      rewrite app_assoc, ExtFacts.skipn_stem. reflexivity. }
    rewrite Hslice.
    destruct (existsb (fun c => negb (N.eqb c 46%N))
                     (slice name (-1 + 1) (0 + k))); [|reflexivity].
    cbn [snd].
    replace (Z.to_nat (L + 1 + k))
      with (List.length (dir ++ py "/") + Z.to_nat k)
      by (rewrite length_app; unfold L; simpl; lia).
    rewrite app_assoc, ExtFacts.skipn_stem.
    replace (Z.to_nat (0 + k)) with (Z.to_nat k) by lia. reflexivity.
Qed.

End PathFacts.

(** X23.  The extension [process_file] of remove_commented_lines.py takes
    from a full path is the one [main] takes from the file name: with a
    name that holds no separator, the directories of the path, dots in
    their names included, do not count. *)
Theorem extension_of_path_is_of_name (dir name : pystr) :
  ~ In SEP name ->
  file_ext (dir ++ py "/" ++ name) = file_ext name.
Proof.
  intros H. unfold file_ext. rewrite PathFacts.splitext_join by exact H.
  reflexivity.
Qed.

Lemma extension_of_path_is_of_name_witness :
  ~ In SEP (py "Main.KT") /\
  file_ext (py "/home/u/app.v2/src" ++ py "/" ++ py "Main.KT")
  = file_ext (py "Main.KT").
Proof.
  assert (H : ~ In SEP (py "Main.KT"))
    by (vm_compute; intuition discriminate).
  split; [exact H|].
  exact (extension_of_path_is_of_name (py "/home/u/app.v2/src") (py "Main.KT") H).
Defined.

(** X24.  A block comment in an XML file: after lines that leave the loop
    outside a block, a line whose trimmed content starts with [<!--] and
    does not end with [-->], the lines after it that hold no [-->], and
    the first line that holds [-->] are all removed, and the lines after
    that are handled as from the start of a file. *)
Theorem xml_block_removed
        (ext : pystr) (before : list pystr) (opener : pystr)
        (inside : list pystr) (closer : pystr) (rest : list pystr) :
  classify ext = XmlBlock ->
  in_block (fold_left xml_body before start) = false ->
  starts_with (py "<!--") (strip opener) = true ->
  ends_with (py "-->") (strip opener) = false ->
  Forall (fun l => contains (py "-->") l = false) inside ->
  contains (py "-->") closer = true ->
  remove_full_line_comments (before ++ opener :: inside ++ closer :: rest) ext
  = (fst (remove_full_line_comments before ext)
     ++ fst (remove_full_line_comments rest ext),
     snd (remove_full_line_comments before ext)
     + (List.length inside + 2)
     + snd (remove_full_line_comments rest ext)).
Proof.
  intros Hext Hb Ho Hc Hin Hcl.
  rewrite !LinesFacts.remove_full_line_comments_branch, Hext.
  rewrite (BlockFacts.loop_after xml_body Spec.xml_rule before _
             LinesFacts.xml_body_rule Hb).
  rewrite (LinesFacts.loop_from_start _ _ LinesFacts.xml_body_rule rest).
  unfold Spec.strip_lines.
  rewrite (SpecFacts.strip_lines_from_remove Spec.xml_rule false true opener).
  - rewrite BlockFacts.strip_lines_from_block.
    + rewrite (SpecFacts.strip_lines_from_remove Spec.xml_rule true false closer).
      * cbn [fst snd]. f_equal. lia.
      * unfold Spec.xml_rule. rewrite Hcl. reflexivity.
    + eapply Forall_impl; [|exact Hin]. intros l Hl.
      unfold Spec.xml_rule. rewrite Hl. reflexivity.
  - unfold Spec.xml_rule. rewrite Ho, Hc. reflexivity.
Qed.

Lemma xml_block_removed_witness :
  classify (py ".xml") = XmlBlock /\
  in_block (fold_left xml_body [ln "<a>"] start) = false /\
  starts_with (py "<!--") (strip (ln "  <!-- b --> <c/>")) = true /\
  ends_with (py "-->") (strip (ln "  <!-- b --> <c/>")) = false /\
  Forall (fun l => contains (py "-->") l = false) [ln "<d/>"] /\
  contains (py "-->") (ln "<e/> <!-- f --> <g/>") = true /\
  remove_full_line_comments
    ([ln "<a>"] ++ ln "  <!-- b --> <c/>"
       :: [ln "<d/>"] ++ ln "<e/> <!-- f --> <g/>" :: [ln "</a>"])
    (py ".xml")
  = (fst (remove_full_line_comments [ln "<a>"] (py ".xml"))
     ++ fst (remove_full_line_comments [ln "</a>"] (py ".xml")),
     snd (remove_full_line_comments [ln "<a>"] (py ".xml"))
     + (List.length [ln "<d/>"] + 2)
     + snd (remove_full_line_comments [ln "</a>"] (py ".xml"))).
Proof.
  assert (H : Forall (fun l => contains (py "-->") l = false) [ln "<d/>"])
    by (repeat constructor).
  split; [reflexivity|]. split; [reflexivity|]. split; [reflexivity|].
  split; [reflexivity|]. split; [exact H|]. split; [reflexivity|].
  exact (xml_block_removed (py ".xml") [ln "<a>"] (ln "  <!-- b --> <c/>")
           [ln "<d/>"] (ln "<e/> <!-- f --> <g/>") [ln "</a>"]
           eq_refl eq_refl eq_refl eq_refl H eq_refl).
Defined.
